(** * Call/create orchestration of the EVM (geth/core/vm/evm.go)

    A shallow embedding of [Call], [CallCode], [DelegateCall], [StaticCall],
    [create], [Create] and [Create2] with explicit state passing: every
    operation takes the machine ([EVM]) and returns its results together
    with the machine it leaves behind.  The state store, the precompiled
    contracts, the bytecode interpreter and the hash functions are the
    collaborators of the orchestrator; they enter through small interfaces. *)

From Stdlib Require Import ZArith List Bool Lia.
From Stdlib Require Import Strings.Byte.
From stdpp Require Import base gmap sets list.

Local Open Scope Z_scope.

(** ** Machine integers *)

(** Go's [uint64] arithmetic wraps around modulo 2^64. *)
Definition wrap64 (z : Z) : Z := z mod 2 ^ 64.

Definition is_uint64 (z : Z) : Prop := 0 <= z < 2 ^ 64.

#[global] Instance byte_eq_dec : EqDecision byte := Byte.byte_eq_dec.

(** ** Addresses, hashes, errors, opcodes *)

Definition Address := Z.
Definition Hash := Z.

(** [common.Hash{}], the all-zero hash. *)
Definition zeroHash : Hash := 0.

(** [common.Address{}], the all-zero address. *)
Definition zeroAddress : Address := 0.

(** The error values the orchestrator returns or compares against; every
    other failure reported by the interpreter or a precompile is an
    [ErrExecutionFault]. *)
Inductive Error : Type :=
| ErrDepth
| ErrInsufficientBalance
| ErrNonceUintOverflow
| ErrContractAddressCollision
| ErrMaxCodeSizeExceeded
| ErrInvalidCode
| ErrCodeStoreOutOfGas
| ErrExecutionReverted
| ErrExecutionFault (kind : nat).

#[global] Instance Error_eq_dec : EqDecision Error.
Proof. solve_decision. Defined.

Inductive OpCode : Type :=
| CALL | CALLCODE | DELEGATECALL | STATICCALL | CREATE | CREATE2.

(** ** Parameters of the protocol (package params) *)

Module params.
(** Maximum depth of the call/create stack. *)
Definition CallCreateDepth : Z := 1024.
(** Gas charged per byte of deployed code. *)
Definition CreateDataGas : Z := 200.

(** The fork flags the orchestrator consults. *)
Record Rules : Type := mkRules {
  IsHomestead : bool; IsEIP158 : bool; IsByzantium : bool;
  IsIstanbul : bool; IsBerlin : bool; IsLondon : bool }.
End params.

(** ** The state store *)

(** Modelled from the spec: the account record of the state store (the
    StateDB implementation is not among the sources): nonce, balance,
    code with its hash, and storage. *)
Record Account : Type := mkAccount {
  nonce : Z;
  balance : Z;
  codeHash : Hash;
  bytecode : list byte;
  storage : gmap Z Z }.

(** Modelled from the spec: what a checkpoint captures and a rollback
    restores: the accounts, the set of touched addresses and the access
    set. *)
Record World : Type := mkWorld {
  accounts : gmap Address Account;
  touched : gset Address;
  accessList : gset Address }.

(** Modelled from the spec: the state store (StateDB is not among the
    sources): the current world, the checkpoints still valid (newest
    first, each with the world it captured) and the next checkpoint id. *)
Record StateDB : Type := mkStateDB {
  world : World;
  validRevisions : list (Z * World);
  nextRevisionId : Z }.

(** Modelled from the spec: the store with another world and the same
    checkpoints (StateDB is not among the sources). *)
Definition set_world (w : World) (s : StateDB) : StateDB :=
  {| world := w; validRevisions := validRevisions s;
     nextRevisionId := nextRevisionId s |}.

(** Modelled from the spec: the store with other accounts. *)
Definition set_accounts (m : gmap Address Account) (s : StateDB) : StateDB :=
  set_world {| accounts := m; touched := touched (world s);
               accessList := accessList (world s) |} s.

(** Modelled from the spec: the account record at an address, if any
    (StateDB is not among the sources). *)
Definition getStateObject (s : StateDB) (addr : Address) : option Account :=
  accounts (world s) !! addr.

(** Modelled from the spec: the lookup of a checkpoint (StateDB is not
    among the sources): the newest checkpoint with the given id, and the
    older ones below it. *)
Fixpoint findRevision (revs : list (Z * World)) (id : Z)
  : option (World * list (Z * World)) :=
  match revs with
  | [] => None
  | (i, w) :: older =>
      if i =? id then Some (w, older) else findRevision older id
  end.

(** Modelled from the spec: the world a checkpoint of the store would
    restore, if it is valid (StateDB is not among the sources). *)
Definition checkpoint (s : StateDB) (id : Z) : option World :=
  fst <$> findRevision (validRevisions s) id.

(** Modelled from the spec: StateDB.Snapshot (not among the sources):
    returns an opaque handle for the current world; the world itself is
    unchanged. *)
Definition Snapshot (s : StateDB) : Z * StateDB :=
  (nextRevisionId s,
   {| world := world s;
      validRevisions := (nextRevisionId s, world s) :: validRevisions s;
      nextRevisionId := nextRevisionId s + 1 |}).

(** Modelled from the spec: StateDB.RevertToSnapshot (not among the
    sources): undoes every mutation performed after the matching
    checkpoint and invalidates that checkpoint and the newer ones.  A
    handle that matches no valid checkpoint is outside the contract of the
    store; the model leaves the store as it is. *)
Definition RevertToSnapshot (s : StateDB) (id : Z) : StateDB :=
  match findRevision (validRevisions s) id with
  | Some (w, older) =>
      {| world := w; validRevisions := older;
         nextRevisionId := nextRevisionId s |}
  | None => s
  end.

(** Modelled from the spec: StateDB.Exist (not among the sources). *)
Definition Exist (s : StateDB) (addr : Address) : bool :=
  bool_decide (is_Some (getStateObject s addr)).

(** Modelled from the spec: StateDB.GetNonce (not among the sources); an
    absent account has nonce 0. *)
Definition GetNonce (s : StateDB) (addr : Address) : Z :=
  match getStateObject s addr with
  | Some a => nonce a
  | None => 0
  end.

(** Modelled from the spec: StateDB.GetBalance (not among the sources). *)
Definition GetBalance (s : StateDB) (addr : Address) : Z :=
  match getStateObject s addr with
  | Some a => balance a
  | None => 0
  end.

(** Modelled from the spec: StateDB.GetCode (not among the sources). *)
Definition GetCode (s : StateDB) (addr : Address) : list byte :=
  match getStateObject s addr with
  | Some a => bytecode a
  | None => []
  end.

(** Modelled from the spec: StateDB.GetCodeHash (not among the sources);
    an absent account has the zero hash. *)
Definition GetCodeHash (s : StateDB) (addr : Address) : Hash :=
  match getStateObject s addr with
  | Some a => codeHash a
  | None => zeroHash
  end.

(** Modelled from the spec: StateDB.AddAddressToAccessList (not among the
    sources): marks an address as accessed. *)
Definition AddAddressToAccessList (s : StateDB) (addr : Address) : StateDB :=
  set_world {| accounts := accounts (world s); touched := touched (world s);
               accessList := {[ addr ]} ∪ accessList (world s) |} s.

(** Modelled from the spec: StateDB.AddressInAccessList (not among the
    sources). *)
Definition AddressInAccessList (s : StateDB) (addr : Address) : bool :=
  bool_decide (addr ∈ accessList (world s)).

(** Modelled from the spec: the touch of an address (StateDB is not among
    the sources), the accounting side effect of a zero-amount balance
    increment. *)
Definition touch (s : StateDB) (addr : Address) : StateDB :=
  set_world {| accounts := accounts (world s);
               touched := {[ addr ]} ∪ touched (world s);
               accessList := accessList (world s) |} s.

(** Modelled from the spec: whether an address carries a touch. *)
Definition isTouched (s : StateDB) (addr : Address) : bool :=
  bool_decide (addr ∈ touched (world s)).

(** Modelled from the spec: the hash and address-derivation functions of
    package crypto (not among the sources), consumed at their interface. *)
Class Crypto : Type := {
  Keccak256Hash : list byte → Hash;
  CreateAddress : Address → Z → Address;
  CreateAddress2 : Address → Z → Hash → Address }.

Section Store.
Context `{Crypto}.

(** [emptyCodeHash] is used by create to ensure deployment is disallowed
    to already deployed contract addresses. *)
Definition emptyCodeHash : Hash := Keccak256Hash [].

(** Modelled from the spec: a freshly materialized account (StateDB is
    not among the sources). *)
Definition newObject : Account :=
  {| nonce := 0; balance := 0; codeHash := emptyCodeHash; bytecode := [];
     storage := ∅ |}.

(** Modelled from the spec: an empty account has zero nonce, zero balance
    and no code (StateDB is not among the sources). *)
Definition empty (a : Account) : bool :=
  (nonce a =? 0) && (balance a =? 0) && (codeHash a =? emptyCodeHash).

(** Modelled from the spec: auto-vivification, the implicit creation of
    an account record on first reference (StateDB is not among the
    sources). *)
Definition GetOrNewStateObject (s : StateDB) (addr : Address)
  : Account * StateDB :=
  match getStateObject s addr with
  | Some a => (a, s)
  | None => (newObject, set_accounts (<[addr := newObject]> (accounts (world s))) s)
  end.

(** Modelled from the spec: an update of one account, materialized first
    if absent (StateDB is not among the sources). *)
Definition updateObject (s : StateDB) (addr : Address)
    (f : Account → Account) : StateDB :=
  let '(a, s1) := GetOrNewStateObject s addr in
  set_accounts (<[addr := f a]> (accounts (world s1))) s1.

(** Modelled from the spec: StateDB.CreateAccount (not among the
    sources): materializes a fresh account at the address; a balance
    already held there is carried over. *)
Definition CreateAccount (s : StateDB) (addr : Address) : StateDB :=
  set_accounts
    (<[addr := {| nonce := 0; balance := GetBalance s addr;
                  codeHash := emptyCodeHash; bytecode := []; storage := ∅ |}]>
       (accounts (world s))) s.

(** Modelled from the spec: StateDB.SetNonce (not among the sources). *)
Definition SetNonce (s : StateDB) (addr : Address) (nonce : Z) : StateDB :=
  updateObject s addr (λ a,
    {| nonce := nonce; balance := balance a; codeHash := codeHash a;
       bytecode := bytecode a; storage := storage a |}).

(** Modelled from the spec: StateDB.SetCode (not among the sources):
    stores the code together with its hash. *)
Definition SetCode (s : StateDB) (addr : Address) (code : list byte)
  : StateDB :=
  updateObject s addr (λ a,
    {| nonce := nonce a; balance := balance a;
       codeHash := Keccak256Hash code; bytecode := code;
       storage := storage a |}).

(** Modelled from the spec: the balance of an account is set (StateDB is
    not among the sources). *)
Definition setBalance (s : StateDB) (addr : Address) (amount : Z)
  : StateDB :=
  updateObject s addr (λ a,
    {| nonce := nonce a; balance := amount; codeHash := codeHash a;
       bytecode := bytecode a; storage := storage a |}).

(** Modelled from the spec: StateDB.AddBalance (not among the sources):
    the target account is materialized if absent; a zero amount changes
    no balance and leaves a touch on an empty account. *)
Definition AddBalance (s : StateDB) (addr : Address) (amount : Z)
  : StateDB :=
  let '(a, s1) := GetOrNewStateObject s addr in
  if amount =? 0 then (if empty a then touch s1 addr else s1)
  else setBalance s1 addr (balance a + amount).

(** Modelled from the spec: StateDB.SubBalance (not among the sources). *)
Definition SubBalance (s : StateDB) (addr : Address) (amount : Z)
  : StateDB :=
  let '(a, s1) := GetOrNewStateObject s addr in
  if amount =? 0 then s1 else setBalance s1 addr (balance a - amount).
End Store.

(** ** Execution frames (the contract object) *)

(** Modelled from the spec: ContractRef (contract.go is not among the
    sources), a reference to the party that issued a call: a plain
    account, or an executing frame seen through its own address and
    through the caller address and value that frame carries. *)
Inductive ContractRef : Type :=
| AccountRef (a : Address)
| ContractPtr (self : Address) (callerAddress : Address) (value : option Z).

(** [ContractRef.Address()]. *)
Definition Address_of (r : ContractRef) : Address :=
  match r with
  | AccountRef a => a
  | ContractPtr self _ _ => self
  end.

(** Modelled from the spec: the scoped execution frame (contract.go is not
    among the sources): caller reference, self address, code image with
    its hash, remaining gas, value attached ([None] is Go's nil). *)
Record Contract : Type := mkContract {
  CallerAddress : Address;
  caller : ContractRef;
  self : ContractRef;
  Code : list byte;
  CodeHash : Hash;
  CodeAddr : option Address;
  Gas : Z;
  value : option Z }.

(** A frame used as the caller of a nested call. *)
Definition asRef (c : Contract) : ContractRef :=
  ContractPtr (Address_of (self c)) (CallerAddress c) (value c).

(** Modelled from the spec: NewContract (contract.go is not among the
    sources). *)
Definition NewContract (caller : ContractRef) (object : ContractRef)
    (value : option Z) (gas : Z) : Contract :=
  {| CallerAddress := Address_of caller; caller := caller; self := object;
     Code := []; CodeHash := zeroHash; CodeAddr := None;
     Gas := gas; value := value |}.

(** Modelled from the spec: Contract.AsDelegate (contract.go is not among
    the sources): the delegated frame inherits caller identity and value
    from the enclosing frame.  The enclosing party must be a frame; for a
    plain account there is nothing to inherit and the result is [None]. *)
Definition AsDelegate (c : Contract) : option Contract :=
  match caller c with
  | ContractPtr _ parentCaller parentValue =>
      Some {| CallerAddress := parentCaller; caller := caller c;
              self := self c; Code := Code c; CodeHash := CodeHash c;
              CodeAddr := CodeAddr c; Gas := Gas c; value := parentValue |}
  | AccountRef _ => None
  end.

(** Modelled from the spec: Contract.SetCallCode (contract.go is not among
    the sources). *)
Definition SetCallCode (c : Contract) (addr : Address) (hash : Hash)
    (code : list byte) : Contract :=
  {| CallerAddress := CallerAddress c; caller := caller c; self := self c;
     Code := code; CodeHash := hash; CodeAddr := Some addr;
     Gas := Gas c; value := value c |}.

Definition set_Gas (g : Z) (c : Contract) : Contract :=
  {| CallerAddress := CallerAddress c; caller := caller c; self := self c;
     Code := Code c; CodeHash := CodeHash c; CodeAddr := CodeAddr c;
     Gas := g; value := value c |}.

(** Modelled from the spec: Contract.UseGas (contract.go is not among the
    sources): attempts to deduct the amount from the remaining gas of the
    frame; with insufficient gas nothing is deducted. *)
Definition UseGas (c : Contract) (gas : Z) : bool * Contract :=
  if Gas c <? gas then (false, c) else (true, set_Gas (Gas c - gas) c).

Record codeAndHash : Type := mkCodeAndHash {
  code : list byte;
  hash : Hash }.

(** Modelled from the spec: Contract.SetCodeOptionalHash (contract.go is
    not among the sources). *)
Definition SetCodeOptionalHash (c : Contract) (addr : Address)
    (ch : codeAndHash) : Contract :=
  {| CallerAddress := CallerAddress c; caller := caller c; self := self c;
     Code := code ch; CodeHash := hash ch; CodeAddr := Some addr;
     Gas := Gas c; value := value c |}.

(** ** Execution context *)

(** Modelled from the spec: the tracer hooks (the tracer interface is not
    among the sources), as the events the orchestrator reports; durations
    are not recorded. *)
Inductive TraceEvent : Type :=
| CaptureStart (from to : Address) (create : bool) (input : list byte)
    (gas : Z) (value : Z)
| CaptureEnd (output : list byte) (gasUsed : Z) (err : option Error)
| CaptureEnter (typ : OpCode) (from to : Address) (input : list byte)
    (gas : Z) (value : option Z)
| CaptureExit (output : list byte) (gasUsed : Z) (err : option Error).

(** [BlockContext] provides the EVM with auxiliary information. *)
Record BlockContext : Type := mkBlockContext {
  CanTransfer : StateDB → Address → Z → bool;
  Transfer : StateDB → Address → Address → Z → StateDB;
  GetHash : Z → Hash;
  Coinbase : Address; GasLimit : Z; BlockNumber : Z; Time : Z;
  Difficulty : Z; BaseFee : Z; Random : option Hash }.

(** [TxContext] provides the EVM with information about a transaction. *)
Record TxContext : Type := mkTxContext {
  Origin : Address;
  GasPrice : Z }.

(** The configuration options the orchestrator reads; the tracer is
    represented by the events it has received. *)
Record Config : Type := mkConfig { Debug : bool; Tracer : list TraceEvent }.

Record EVM : Type := mkEVM {
  Context : BlockContext;
  txContext : TxContext;
  stateDB : StateDB;
  depth : Z;
  chainRules : params.Rules;
  config : Config;
  abort : Z;
  callGasTemp : Z }.

Definition set_stateDB (s : StateDB) (evm : EVM) : EVM :=
  {| Context := Context evm; txContext := txContext evm; stateDB := s;
     depth := depth evm; chainRules := chainRules evm;
     config := config evm; abort := abort evm;
     callGasTemp := callGasTemp evm |}.

(** The tracer receives one more event. *)
Definition capture (ev : TraceEvent) (evm : EVM) : EVM :=
  {| Context := Context evm; txContext := txContext evm;
     stateDB := stateDB evm; depth := depth evm;
     chainRules := chainRules evm;
     config := {| Debug := Debug (config evm);
                  Tracer := Tracer (config evm) ++ [ev] |};
     abort := abort evm; callGasTemp := callGasTemp evm |}.



(** ** Collaborators: precompiled contracts and the interpreter *)

(** Modelled from the spec: a precompiled contract (contracts.go is not
    among the sources) is a callable from input bytes and a gas budget to
    output bytes, leftover gas and an error, with no access to the state
    store. *)
Definition PrecompiledContract : Type :=
  list byte → Z → list byte * Z * option Error.

(** Modelled from the spec: RunPrecompiledContract (contracts.go is not
    among the sources) invokes the callable with the input and the gas. *)
Definition RunPrecompiledContract (p : PrecompiledContract)
    (input : list byte) (suppliedGas : Z) : list byte * Z * option Error :=
  p input suppliedGas.

(** The fork-versioned precompile tables. *)
Class Precompiles : Type := {
  PrecompiledContractsHomestead : gmap Address PrecompiledContract;
  PrecompiledContractsByzantium : gmap Address PrecompiledContract;
  PrecompiledContractsIstanbul : gmap Address PrecompiledContract;
  PrecompiledContractsBerlin : gmap Address PrecompiledContract }.

(** The bytecode interpreter: [Run] executes the code of a frame on an
    input, read-only or not, and returns the output and the error, the
    frame with its gas updated, and the machine it leaves behind. *)
Class EVMInterpreter : Type := {
  Run : EVM → Contract → list byte → bool →
        list byte * option Error * Contract * EVM }.

(** Modelled from the spec: the maximum code size, a constant of package
    params whose value the sources do not show. *)
Class ProtocolParams : Type := {
  MaxCodeSize : Z }.

(** ** The orchestrator *)

(** What a call returns: output, leftover gas, error, and the machine. *)
Definition CallOutcome : Type := list byte * Z * option Error * EVM.

(** What a creation returns: output, address, leftover gas, error, and the
    machine. *)
Definition CreateOutcome : Type :=
  list byte * Address * Z * option Error * EVM.

Section Orchestrator.
Context `{Crypto} `{Precompiles} `{EVMInterpreter} `{ProtocolParams}.

(** [precompile] selects the table of the active fork and looks the
    address up. *)
Definition precompile (evm : EVM) (addr : Address)
  : option PrecompiledContract :=
  let precompiles :=
    if params.IsBerlin (chainRules evm) then PrecompiledContractsBerlin
    else if params.IsIstanbul (chainRules evm) then PrecompiledContractsIstanbul
    else if params.IsByzantium (chainRules evm) then PrecompiledContractsByzantium
    else PrecompiledContractsHomestead in
  precompiles !! addr.

Definition isPrecompile (p : option PrecompiledContract) : bool :=
  match p with Some _ => true | None => false end.

(** [snapshot := evm.StateDB.Snapshot()]. *)
Definition takeSnapshot (evm : EVM) : Z * EVM :=
  let '(snapshot, s) := Snapshot (stateDB evm) in
  (snapshot, set_stateDB s evm).

(** The error handling that ends each of the four call variants: on any
    error revert to the snapshot, and unless the error is
    [ErrExecutionReverted] consume the gas. *)
Definition revertOnError (snapshot : Z) (o : CallOutcome) : CallOutcome :=
  let '(ret, gas, err, evm) := o in
  match err with
  | Some e =>
      (ret, (if decide (e = ErrExecutionReverted) then gas else 0), err,
       set_stateDB (RevertToSnapshot (stateDB evm) snapshot) evm)
  | None => (ret, gas, err, evm)
  end.

(** The deferred tracer hook of a call variant; it was registered only if
    [registered] holds and reports the gas used by the frame. *)
Definition deferredCapture (registered top : bool) (startGas : Z)
    (o : CallOutcome) : CallOutcome :=
  let '(ret, gas, err, evm) := o in
  if registered then
    (ret, gas, err,
     capture (if top then CaptureEnd ret (wrap64 (startGas - gas)) err
              else CaptureExit ret (wrap64 (startGas - gas)) err) evm)
  else (ret, gas, err, evm).

(** *** Call *)

(** Calling a non existing account: nothing is done, but the tracer is
    pinged. *)
Definition Call_pingTracer (evm : EVM) (caller : ContractRef)
    (addr : Address) (input : list byte) (gas : Z) (value : Z) : EVM :=
  if Debug (config evm) then
    if depth evm =? 0 then
      capture (CaptureEnd [] 0 None)
        (capture (CaptureStart (Address_of caller) addr false input gas value)
           evm)
    else
      capture (CaptureExit [] 0 None)
        (capture (CaptureEnter CALL (Address_of caller) addr input gas
                    (Some value)) evm)
  else evm.

(** The branch of [Call] that returns before any account is set up. *)
Definition Call_noop (evm : EVM) (addr : Address) (value : Z) : bool :=
  negb (Exist (stateDB evm) addr) &&
  (negb (isPrecompile (precompile evm addr)) &&
   params.IsEIP158 (chainRules evm) && (value =? 0)).

(** Account setup, transfer and the opening tracer event of [Call], from
    the machine that holds the snapshot to the machine that dispatches. *)
Definition Call_setup (evm : EVM) (caller : ContractRef) (addr : Address)
    (input : list byte) (gas : Z) (value : Z) : EVM :=
  let evm :=
    if negb (Exist (stateDB evm) addr)
    then set_stateDB (CreateAccount (stateDB evm) addr) evm else evm in
  let evm :=
    set_stateDB
      (Transfer (Context evm) (stateDB evm) (Address_of caller) addr value)
      evm in
  if Debug (config evm) then
    if depth evm =? 0 then
      capture (CaptureStart (Address_of caller) addr false input gas value) evm
    else
      capture (CaptureEnter CALL (Address_of caller) addr input gas
                 (Some value)) evm
  else evm.

(** Dispatch of [Call] to the precompile or to the interpreter. *)
Definition Call_dispatch (evm : EVM) (p : option PrecompiledContract)
    (caller : ContractRef) (addr : Address) (input : list byte) (gas : Z)
    (value : Z) : CallOutcome :=
  match p with
  | Some p =>
      let '(ret, gas, err) := RunPrecompiledContract p input gas in
      (ret, gas, err, evm)
  | None =>
      let code := GetCode (stateDB evm) addr in
      if (length code =? 0)%nat then ([], gas, None, evm)
      else
        let contract := NewContract caller (AccountRef addr) (Some value) gas in
        let contract :=
          SetCallCode contract addr (GetCodeHash (stateDB evm) addr) code in
        let '(ret, err, contract, evm) := Run evm contract input false in
        (ret, Gas contract, err, evm)
  end.

(** The part of [Call] that follows the depth and balance checks:
    snapshot, account setup, transfer, dispatch, error handling. *)
Definition Call_frame (evm : EVM) (caller : ContractRef) (addr : Address)
    (input : list byte) (gas : Z) (value : Z) : CallOutcome :=
  let '(snapshot, evm) := takeSnapshot evm in
  let p := precompile evm addr in
  if Call_noop evm addr value then
    ([], gas, None, Call_pingTracer evm caller addr input gas value)
  else
    let registered := Debug (config evm) in
    let top := depth evm =? 0 in
    let evm := Call_setup evm caller addr input gas value in
    deferredCapture registered top gas
      (revertOnError snapshot
         (Call_dispatch evm p caller addr input gas value)).

(** [Call] executes the contract associated with the address with the
    given input as parameters. *)
Definition Call (evm : EVM) (caller : ContractRef) (addr : Address)
    (input : list byte) (gas : Z) (value : Z) : CallOutcome :=
  if depth evm >? params.CallCreateDepth then ([], gas, Some ErrDepth, evm)
  else if negb (value =? 0) &&
          negb (CanTransfer (Context evm) (stateDB evm) (Address_of caller)
                  value)
  then ([], gas, Some ErrInsufficientBalance, evm)
  else Call_frame evm caller addr input gas value.

(** *** CallCode *)

Definition enterHook (typ : OpCode) (evm : EVM) (caller : ContractRef)
    (addr : Address) (input : list byte) (gas : Z) (value : option Z) : EVM :=
  if Debug (config evm) then
    capture (CaptureEnter typ (Address_of caller) addr input gas value) evm
  else evm.

Definition CallCode_dispatch (evm : EVM) (caller : ContractRef)
    (addr : Address) (input : list byte) (gas : Z) (value : Z)
  : CallOutcome :=
  match precompile evm addr with
  | Some p =>
      let '(ret, gas, err) := RunPrecompiledContract p input gas in
      (ret, gas, err, evm)
  | None =>
      let contract :=
        NewContract caller (AccountRef (Address_of caller)) (Some value) gas in
      let contract :=
        SetCallCode contract addr (GetCodeHash (stateDB evm) addr)
          (GetCode (stateDB evm) addr) in
      let '(ret, err, contract, evm) := Run evm contract input false in
      (ret, Gas contract, err, evm)
  end.

(** [CallCode] differs from [Call] in the sense that it executes the given
    address' code with the caller as context. *)
Definition CallCode (evm : EVM) (caller : ContractRef) (addr : Address)
    (input : list byte) (gas : Z) (value : Z) : CallOutcome :=
  if depth evm >? params.CallCreateDepth then ([], gas, Some ErrDepth, evm)
  else if negb (CanTransfer (Context evm) (stateDB evm) (Address_of caller)
                  value)
  then ([], gas, Some ErrInsufficientBalance, evm)
  else
    let '(snapshot, evm) := takeSnapshot evm in
    let registered := Debug (config evm) in
    let evm := enterHook CALLCODE evm caller addr input gas (Some value) in
    deferredCapture registered false gas
      (revertOnError snapshot
         (CallCode_dispatch evm caller addr input gas value)).

(** *** DelegateCall *)

(** [None] when the frame cannot be made a delegate of its caller. *)
Definition DelegateCall_dispatch (evm : EVM) (caller : ContractRef)
    (addr : Address) (input : list byte) (gas : Z) : option CallOutcome :=
  match precompile evm addr with
  | Some p =>
      let '(ret, gas, err) := RunPrecompiledContract p input gas in
      Some (ret, gas, err, evm)
  | None =>
      contract ← AsDelegate
        (NewContract caller (AccountRef (Address_of caller)) None gas);
      let contract :=
        SetCallCode contract addr (GetCodeHash (stateDB evm) addr)
          (GetCode (stateDB evm) addr) in
      let '(ret, err, contract, evm) := Run evm contract input false in
      Some (ret, Gas contract, err, evm)
  end.

(** [DelegateCall] differs from [CallCode] in the sense that the caller is
    set to the caller of the caller. *)
Definition DelegateCall (evm : EVM) (caller : ContractRef) (addr : Address)
    (input : list byte) (gas : Z) : option CallOutcome :=
  if depth evm >? params.CallCreateDepth
  then Some ([], gas, Some ErrDepth, evm)
  else
    let '(snapshot, evm) := takeSnapshot evm in
    let registered := Debug (config evm) in
    let evm := enterHook DELEGATECALL evm caller addr input gas None in
    o ← DelegateCall_dispatch evm caller addr input gas;
    Some (deferredCapture registered false gas (revertOnError snapshot o)).

(** *** StaticCall *)

(** The zero-amount balance increment that triggers a touch, and the
    opening tracer event. *)
Definition StaticCall_setup (evm : EVM) (caller : ContractRef)
    (addr : Address) (input : list byte) (gas : Z) : EVM :=
  let evm := set_stateDB (AddBalance (stateDB evm) addr 0) evm in
  enterHook STATICCALL evm caller addr input gas None.

Definition StaticCall_dispatch (evm : EVM) (caller : ContractRef)
    (addr : Address) (input : list byte) (gas : Z) : CallOutcome :=
  match precompile evm addr with
  | Some p =>
      let '(ret, gas, err) := RunPrecompiledContract p input gas in
      (ret, gas, err, evm)
  | None =>
      let contract := NewContract caller (AccountRef addr) (Some 0) gas in
      let contract :=
        SetCallCode contract addr (GetCodeHash (stateDB evm) addr)
          (GetCode (stateDB evm) addr) in
      let '(ret, err, contract, evm) := Run evm contract input true in
      (ret, Gas contract, err, evm)
  end.

(** [StaticCall] executes the contract while disallowing any modifications
    to the state during the call. *)
Definition StaticCall (evm : EVM) (caller : ContractRef) (addr : Address)
    (input : list byte) (gas : Z) : CallOutcome :=
  if depth evm >? params.CallCreateDepth then ([], gas, Some ErrDepth, evm)
  else
    let '(snapshot, evm) := takeSnapshot evm in
    let registered := Debug (config evm) in
    let evm := StaticCall_setup evm caller addr input gas in
    deferredCapture registered false gas
      (revertOnError snapshot (StaticCall_dispatch evm caller addr input gas)).

(** *** Contract creation *)

(** [codeAndHash.Hash]: the hash is computed on first use and kept. *)
Definition codeAndHash_Hash (c : codeAndHash) : Hash * codeAndHash :=
  if hash c =? zeroHash then
    let h := Keccak256Hash (code c) in (h, {| code := code c; hash := h |})
  else (hash c, c).

(** Whether incrementing the nonce would overflow. *)
Definition create_nonceOverflow (evm : EVM) (caller : ContractRef) : bool :=
  let nonce := GetNonce (stateDB evm) (Address_of caller) in
  wrap64 (nonce + 1) <? nonce.

(** The mutations that precede the snapshot: the nonce of the caller is
    incremented and, from Berlin on, the new address is added to the
    access list. *)
Definition create_bump (evm : EVM) (caller : ContractRef)
    (address : Address) : EVM :=
  let nonce := GetNonce (stateDB evm) (Address_of caller) in
  let evm :=
    set_stateDB
      (SetNonce (stateDB evm) (Address_of caller) (wrap64 (nonce + 1))) evm in
  if params.IsBerlin (chainRules evm)
  then set_stateDB (AddAddressToAccessList (stateDB evm) address) evm
  else evm.

(** Whether a contract already exists at the designated address. *)
Definition create_collision (evm : EVM) (address : Address) : bool :=
  let contractHash := GetCodeHash (stateDB evm) address in
  negb (GetNonce (stateDB evm) address =? 0) ||
  (negb (contractHash =? zeroHash) && negb (contractHash =? emptyCodeHash)).

(** Account creation, transfer and the opening tracer event, from the
    machine that holds the snapshot to the machine that runs the
    deployment code. *)
Definition create_setup (evm : EVM) (caller : ContractRef)
    (ch : codeAndHash) (gas : Z) (value : Z) (address : Address)
    (typ : OpCode) : EVM :=
  let evm := set_stateDB (CreateAccount (stateDB evm) address) evm in
  let evm :=
    if params.IsEIP158 (chainRules evm)
    then set_stateDB (SetNonce (stateDB evm) address 1) evm else evm in
  let evm :=
    set_stateDB
      (Transfer (Context evm) (stateDB evm) (Address_of caller) address value)
      evm in
  if Debug (config evm) then
    if depth evm =? 0 then
      capture (CaptureStart (Address_of caller) address true (code ch) gas
                 value) evm
    else
      capture (CaptureEnter typ (Address_of caller) address (code ch) gas
                 (Some value)) evm
  else evm.

(** The frame that runs the deployment code. *)
Definition create_contract (caller : ContractRef) (ch : codeAndHash)
    (gas : Z) (value : Z) (address : Address) : Contract :=
  SetCodeOptionalHash (NewContract caller (AccountRef address) (Some value) gas)
    address ch.

Definition startsWithEF (ret : list byte) : bool :=
  match ret with
  | b :: _ => Byte.eqb b xef
  | [] => false
  end.

(** The gas required to store the code. *)
Definition createDataGas (ret : list byte) : Z :=
  wrap64 (wrap64 (Z.of_nat (length ret)) * params.CreateDataGas).

(** The checks that follow the run of the deployment code: maximum code
    size, the 0xEF prefix, and the charge for storing the code. *)
Definition create_validate (evm : EVM) (address : Address)
    (ret : list byte) (err : option Error) (contract : Contract)
  : option Error * Contract * EVM :=
  let err :=
    if bool_decide (err = None) && params.IsEIP158 (chainRules evm) &&
       (Z.of_nat (length ret) >? MaxCodeSize)
    then Some ErrMaxCodeSizeExceeded else err in
  let err :=
    if bool_decide (err = None) && (1 <=? length ret)%nat &&
       startsWithEF ret && params.IsLondon (chainRules evm)
    then Some ErrInvalidCode else err in
  match err with
  | None =>
      let '(ok, contract) := UseGas contract (createDataGas ret) in
      if ok then
        (None, contract, set_stateDB (SetCode (stateDB evm) address ret) evm)
      else (Some ErrCodeStoreOutOfGas, contract, evm)
  | Some _ => (err, contract, evm)
  end.

(** The error handling of [create]: revert to the snapshot and consume the
    gas, except that before Homestead a code storage gas error reverts
    nothing. *)
Definition create_revertOnError (snapshot : Z) (err : option Error)
    (contract : Contract) (evm : EVM) : Contract * EVM :=
  match err with
  | Some e =>
      if params.IsHomestead (chainRules evm) ||
         negb (bool_decide (e = ErrCodeStoreOutOfGas))
      then
        let evm := set_stateDB (RevertToSnapshot (stateDB evm) snapshot) evm in
        if decide (e = ErrExecutionReverted) then (contract, evm)
        else (snd (UseGas contract (Gas contract)), evm)
      else (contract, evm)
  | None => (contract, evm)
  end.

(** The closing tracer event of [create]. *)
Definition create_captureEnd (evm : EVM) (ret : list byte) (gas : Z)
    (contract : Contract) (err : option Error) : EVM :=
  if Debug (config evm) then
    if depth evm =? 0 then
      capture (CaptureEnd ret (wrap64 (gas - Gas contract)) err) evm
    else capture (CaptureExit ret (wrap64 (gas - Gas contract)) err) evm
  else evm.

(** The part of [create] that follows the collision check: snapshot,
    setup, run, validation, error handling. *)
Definition create_frame (evm : EVM) (caller : ContractRef)
    (ch : codeAndHash) (gas : Z) (value : Z) (address : Address)
    (typ : OpCode) : CreateOutcome :=
  let '(snapshot, evm) := takeSnapshot evm in
  let evm := create_setup evm caller ch gas value address typ in
  let contract := create_contract caller ch gas value address in
  let '(ret, err, contract, evm) := Run evm contract [] false in
  let '(err, contract, evm) := create_validate evm address ret err contract in
  let '(contract, evm) := create_revertOnError snapshot err contract evm in
  let evm := create_captureEnd evm ret gas contract err in
  (ret, address, Gas contract, err, evm).

(** [create] creates a new contract using code as deployment code. *)
Definition create (evm : EVM) (caller : ContractRef) (ch : codeAndHash)
    (gas : Z) (value : Z) (address : Address) (typ : OpCode)
  : CreateOutcome :=
  if depth evm >? params.CallCreateDepth
  then ([], zeroAddress, gas, Some ErrDepth, evm)
  else if negb (CanTransfer (Context evm) (stateDB evm) (Address_of caller)
                  value)
  then ([], zeroAddress, gas, Some ErrInsufficientBalance, evm)
  else if create_nonceOverflow evm caller
  then ([], zeroAddress, gas, Some ErrNonceUintOverflow, evm)
  else
    let evm := create_bump evm caller address in
    if create_collision evm address
    then ([], zeroAddress, 0, Some ErrContractAddressCollision, evm)
    else create_frame evm caller ch gas value address typ.

(** [Create] creates a new contract using code as deployment code. *)
Definition Create (evm : EVM) (caller : ContractRef) (code : list byte)
    (gas : Z) (value : Z) : CreateOutcome :=
  let contractAddr :=
    CreateAddress (Address_of caller)
      (GetNonce (stateDB evm) (Address_of caller)) in
  create evm caller {| code := code; hash := zeroHash |} gas value
    contractAddr CREATE.

(** [Create2] uses the hash of the deployment code and a salt instead of
    the usual sender-and-nonce-hash as the address of the contract. *)
Definition Create2 (evm : EVM) (caller : ContractRef) (code : list byte)
    (gas : Z) (endowment : Z) (salt : Z) : CreateOutcome :=
  let '(h, ch) := codeAndHash_Hash {| code := code; hash := zeroHash |} in
  let contractAddr := CreateAddress2 (Address_of caller) salt h in
  create evm caller ch gas endowment contractAddr CREATE2.

End Orchestrator.

(** ** The call variants, uniformly *)

Inductive CallVariant : Type := VCall | VCallCode | VDelegateCall | VStaticCall.

Section Variants.
Context `{Crypto} `{Precompiles} `{EVMInterpreter} `{ProtocolParams}.

(** The operation of a variant; [DelegateCall] and [StaticCall] take no
    value. *)
Definition invoke (v : CallVariant) (evm : EVM) (caller : ContractRef)
    (addr : Address) (input : list byte) (gas : Z) (value : Z)
  : option CallOutcome :=
  match v with
  | VCall => Some (Call evm caller addr input gas value)
  | VCallCode => Some (CallCode evm caller addr input gas value)
  | VDelegateCall => DelegateCall evm caller addr input gas
  | VStaticCall => Some (StaticCall evm caller addr input gas)
  end.

(** The checks a variant makes before it takes its snapshot. *)
Definition passesChecks (v : CallVariant) (evm : EVM) (caller : ContractRef)
    (value : Z) : bool :=
  negb (depth evm >? params.CallCreateDepth) &&
  match v with
  | VCall =>
      (value =? 0) ||
      CanTransfer (Context evm) (stateDB evm) (Address_of caller) value
  | VCallCode =>
      CanTransfer (Context evm) (stateDB evm) (Address_of caller) value
  | VDelegateCall | VStaticCall => true
  end.

(** The machine a variant hands to the dispatched execution, once the
    snapshot is taken. *)
Definition entered (v : CallVariant) (evm : EVM) (caller : ContractRef)
    (addr : Address) (input : list byte) (gas : Z) (value : Z) : EVM :=
  let evm := snd (takeSnapshot evm) in
  match v with
  | VCall => Call_setup evm caller addr input gas value
  | VCallCode => enterHook CALLCODE evm caller addr input gas (Some value)
  | VDelegateCall => enterHook DELEGATECALL evm caller addr input gas None
  | VStaticCall => StaticCall_setup evm caller addr input gas
  end.

(** The outcome of the dispatched execution of a variant, when the frame
    reaches its dispatch. *)
Definition dispatched (v : CallVariant) (evm : EVM) (caller : ContractRef)
    (addr : Address) (input : list byte) (gas : Z) (value : Z)
  : option CallOutcome :=
  let pre := entered v evm caller addr input gas value in
  match v with
  | VCall =>
      if Call_noop (snd (takeSnapshot evm)) addr value then None
      else Some (Call_dispatch pre (precompile evm addr) caller addr input
                   gas value)
  | VCallCode => Some (CallCode_dispatch pre caller addr input gas value)
  | VDelegateCall => DelegateCall_dispatch pre caller addr input gas
  | VStaticCall => Some (StaticCall_dispatch pre caller addr input gas)
  end.

(** The machine that runs the deployment code of a creation, and that run. *)
Definition create_entered (evm : EVM) (caller : ContractRef)
    (ch : codeAndHash) (gas : Z) (value : Z) (address : Address)
    (typ : OpCode) : EVM :=
  create_setup (snd (takeSnapshot (create_bump evm caller address))) caller
    ch gas value address typ.

Definition create_run (evm : EVM) (caller : ContractRef) (ch : codeAndHash)
    (gas : Z) (value : Z) (address : Address) (typ : OpCode)
  : list byte * option Error * Contract * EVM :=
  Run (create_entered evm caller ch gas value address typ)
    (create_contract caller ch gas value address) [] false.

(** The checks of [create] that precede its first mutation. *)
Definition create_passesChecks (evm : EVM) (caller : ContractRef)
    (value : Z) : bool :=
  negb (depth evm >? params.CallCreateDepth) &&
  CanTransfer (Context evm) (stateDB evm) (Address_of caller) value &&
  negb (create_nonceOverflow evm caller).

(** The collaborators report no more gas than they were given. *)
Definition precompiles_conserve_gas : Prop :=
  ∀ evm addr p input gas,
    precompile evm addr = Some p →
    0 <= gas → 0 <= snd (fst (RunPrecompiledContract p input gas)) <= gas.

Definition interpreter_conserves_gas : Prop :=
  ∀ evm contract input readOnly,
    0 <= Gas contract →
    0 <= Gas (snd (fst (Run evm contract input readOnly))) <= Gas contract.

End Variants.

(** ** A small concrete instance *)

Module Sample.

#[local] Instance crypto : Crypto := {|
  Keccak256Hash := λ l, 1 + Z.of_nat (length l);
  CreateAddress := λ a n, 1000 * a + n + 1;
  CreateAddress2 := λ a salt h, 1000 * a + 500 + salt + h |}.

(** The identity precompile at address 4: one unit of gas per byte. *)
Definition identity : PrecompiledContract :=
  λ input gas,
    let cost := Z.of_nat (length input) in
    if gas <? cost then ([], 0, Some (ErrExecutionFault 0))
    else (input, gas - cost, None).

#[local] Instance precompiles : Precompiles := {|
  PrecompiledContractsHomestead := {[ 4 := identity ]};
  PrecompiledContractsByzantium := {[ 4 := identity ]};
  PrecompiledContractsIstanbul := {[ 4 := identity ]};
  PrecompiledContractsBerlin := {[ 4 := identity ]} |}.

(** A toy interpreter driven by the first byte of the code: [f3] returns
    the rest of the code as output for 100 gas, [fd] reverts with that
    output for 100 gas, [55] writes to the state (it bumps the nonce of the
    frame) unless read-only and then returns, anything else is a fault. *)
Definition charge (c : Contract) (g : Z) : option Contract :=
  if Gas c <? g then None else Some (set_Gas (Gas c - g) c).

Definition run (evm : EVM) (c : Contract) (input : list byte)
    (readOnly : bool) : list byte * option Error * Contract * EVM :=
  match Code c with
  | b :: out =>
      if Byte.eqb b xf3 then
        match charge c 100 with
        | Some c' => (out, None, c', evm)
        | None => ([], Some (ErrExecutionFault 1), c, evm)
        end
      else if Byte.eqb b xfd then
        match charge c 100 with
        | Some c' => (out, Some ErrExecutionReverted, c', evm)
        | None => ([], Some (ErrExecutionFault 1), c, evm)
        end
      else if Byte.eqb b x55 then
        if readOnly then ([], Some (ErrExecutionFault 2), c, evm)
        else
          match charge c 100 with
          | Some c' =>
              let a := Address_of (self c) in
              (out, None, c',
               set_stateDB
                 (SetNonce (stateDB evm) a (GetNonce (stateDB evm) a + 1)) evm)
          | None => ([], Some (ErrExecutionFault 1), c, evm)
          end
      else ([], Some (ErrExecutionFault 3), c, evm)
  | [] => ([], None, c, evm)
  end.

#[local] Instance interpreter : EVMInterpreter := {| Run := run |}.

#[local] Instance protocol : ProtocolParams := {| MaxCodeSize := 24576 |}.

(** The transfer guard and the transfer of a plain value ledger. *)
Definition canTransfer (db : StateDB) (addr : Address) (amount : Z) : bool :=
  GetBalance db addr >=? amount.

Definition transfer (db : StateDB) (sender recipient : Address)
    (amount : Z) : StateDB :=
  AddBalance (SubBalance db sender amount) recipient amount.

Definition blockContext : BlockContext := {|
  CanTransfer := canTransfer; Transfer := transfer; GetHash := λ _, 0;
  Coinbase := 0; GasLimit := 30000000; BlockNumber := 1; Time := 1;
  Difficulty := 0; BaseFee := 0; Random := None |}.

(** A context whose transfer guard declines every transfer. *)
Definition strictContext : BlockContext := {|
  CanTransfer := λ _ _ _, false; Transfer := transfer; GetHash := λ _, 0;
  Coinbase := 0; GasLimit := 30000000; BlockNumber := 1; Time := 1;
  Difficulty := 0; BaseFee := 0; Random := None |}.

Definition account (n b : Z) (c : list byte) : Account :=
  {| nonce := n; balance := b; codeHash := Keccak256Hash c; bytecode := c;
     storage := ∅ |}.

(** Account 10 holds 100 and has no code; account 20 runs code that
    reverts; account 30 runs code that returns; account 40 has nonce 1. *)
Definition store : StateDB := {|
  world := {| accounts :=
                {[ 10 := account 0 100 [];
                   20 := account 1 0 [xfd; x01];
                   30 := account 1 0 [xf3; x02];
                   40 := account 1 0 [] ]};
              touched := ∅; accessList := ∅ |};
  validRevisions := []; nextRevisionId := 0 |}.

Definition rules (homestead : bool) : params.Rules := {|
  params.IsHomestead := homestead; params.IsEIP158 := true;
  params.IsByzantium := true; params.IsIstanbul := true;
  params.IsBerlin := true; params.IsLondon := true |}.

Definition machine (d : Z) (homestead : bool) : EVM := {|
  Context := blockContext; txContext := {| Origin := 10; GasPrice := 1 |};
  stateDB := store; depth := d; chainRules := rules homestead;
  config := {| Debug := false; Tracer := [] |};
  abort := 0; callGasTemp := 0 |}.

Definition strictMachine : EVM := {|
  Context := strictContext; txContext := {| Origin := 10; GasPrice := 1 |};
  stateDB := store; depth := 0; chainRules := rules true;
  config := {| Debug := true; Tracer := [] |};
  abort := 0; callGasTemp := 0 |}.

(** A machine in debug mode, whose tracer receives the events. *)
Definition tracedMachine (d : Z) : EVM := {|
  Context := blockContext; txContext := {| Origin := 10; GasPrice := 1 |};
  stateDB := store; depth := d; chainRules := rules true;
  config := {| Debug := true; Tracer := [] |};
  abort := 0; callGasTemp := 0 |}.

(** A machine above the depth limit whose guard declines everything. *)
Definition deepStrictMachine : EVM := {|
  Context := strictContext; txContext := {| Origin := 10; GasPrice := 1 |};
  stateDB := store; depth := 1025; chainRules := rules true;
  config := {| Debug := false; Tracer := [] |};
  abort := 0; callGasTemp := 0 |}.

(** A machine whose account 10 has the largest nonce a uint64 holds. *)
Definition maxNonceMachine : EVM := {|
  Context := blockContext; txContext := {| Origin := 10; GasPrice := 1 |};
  stateDB := {|
    world := {| accounts := {[ 10 := account (2 ^ 64 - 1) 100 [] ]};
                touched := ∅; accessList := ∅ |};
    validRevisions := []; nextRevisionId := 0 |};
  depth := 0; chainRules := rules true;
  config := {| Debug := false; Tracer := [] |};
  abort := 0; callGasTemp := 0 |}.

(** A machine under the rules of the first release: no fork is active. *)
Definition frontierMachine : EVM := {|
  Context := blockContext; txContext := {| Origin := 10; GasPrice := 1 |};
  stateDB := store; depth := 0;
  chainRules := {|
    params.IsHomestead := false; params.IsEIP158 := false;
    params.IsByzantium := false; params.IsIstanbul := false;
    params.IsBerlin := false; params.IsLondon := false |};
  config := {| Debug := false; Tracer := [] |};
  abort := 0; callGasTemp := 0 |}.

End Sample.

(** * Properties *)

(** ** The state store *)

Section StoreFacts.
Context `{Crypto}.

Lemma checkpoint_Snapshot (s : StateDB) :
  checkpoint (snd (Snapshot s)) (fst (Snapshot s)) = Some (world s).
Proof.
  unfold checkpoint, Snapshot; simpl. by rewrite Z.eqb_refl.
Qed.

Lemma world_Snapshot (s : StateDB) : world (snd (Snapshot s)) = world s.
Proof. reflexivity. Qed.

Lemma RevertToSnapshot_world (s : StateDB) (id : Z) (w : World) :
  checkpoint s id = Some w → world (RevertToSnapshot s id) = w.
Proof.
  unfold checkpoint, RevertToSnapshot.
  destruct (findRevision (validRevisions s) id) as [[w' older]|]; simpl;
    congruence.
Qed.

Lemma getStateObject_updateObject (s : StateDB) (addr b : Address)
    (f : Account → Account) :
  getStateObject (updateObject s addr f) b =
  if decide (addr = b)
  then Some (f (default newObject (getStateObject s addr)))
  else getStateObject s b.
Proof.
  unfold updateObject, GetOrNewStateObject, getStateObject.
  destruct (accounts (world s) !! addr) as [a|] eqn:E; simpl;
    rewrite lookup_insert; destruct (decide (addr = b)) as [->|Hne];
    try reflexivity.
  by rewrite lookup_insert_ne.
Qed.

Lemma validRevisions_updateObject (s : StateDB) (addr : Address)
    (f : Account → Account) :
  validRevisions (updateObject s addr f) = validRevisions s.
Proof.
  unfold updateObject, GetOrNewStateObject.
  by destruct (getStateObject s addr).
Qed.

Lemma validRevisions_AddBalance (s : StateDB) (addr : Address) (amount : Z) :
  validRevisions (AddBalance s addr amount) = validRevisions s.
Proof.
  unfold AddBalance, GetOrNewStateObject, setBalance.
  destruct (getStateObject s addr); destruct (amount =? 0);
    try destruct (empty _); try rewrite validRevisions_updateObject;
    reflexivity.
Qed.

Lemma checkpoint_AddBalance (s : StateDB) (addr : Address) (amount id : Z) :
  checkpoint (AddBalance s addr amount) id = checkpoint s id.
Proof. unfold checkpoint. by rewrite validRevisions_AddBalance. Qed.

Lemma GetNonce_SetNonce_eq (s : StateDB) (a : Address) (n : Z) :
  GetNonce (SetNonce s a n) a = n.
Proof.
  unfold GetNonce, SetNonce. rewrite getStateObject_updateObject.
  by rewrite decide_True.
Qed.

Lemma GetNonce_SetNonce_ne (s : StateDB) (a b : Address) (n : Z) :
  a ≠ b → GetNonce (SetNonce s a n) b = GetNonce s b.
Proof.
  intros Hne. unfold GetNonce, SetNonce.
  rewrite getStateObject_updateObject. by rewrite decide_False.
Qed.

Lemma GetCodeHash_SetNonce_ne (s : StateDB) (a b : Address) (n : Z) :
  a ≠ b → GetCodeHash (SetNonce s a n) b = GetCodeHash s b.
Proof.
  intros Hne. unfold GetCodeHash, SetNonce.
  rewrite getStateObject_updateObject. by rewrite decide_False.
Qed.

Lemma GetNonce_CreateAccount_ne (s : StateDB) (a b : Address) :
  a ≠ b → GetNonce (CreateAccount s a) b = GetNonce s b.
Proof.
  intros Hne. unfold GetNonce, CreateAccount, getStateObject; simpl.
  by rewrite lookup_insert_ne.
Qed.

Lemma GetNonce_SetCode_ne (s : StateDB) (a b : Address) (c : list byte) :
  a ≠ b → GetNonce (SetCode s a c) b = GetNonce s b.
Proof.
  intros Hne. unfold GetNonce, SetCode.
  rewrite getStateObject_updateObject. by rewrite decide_False.
Qed.

Lemma GetCode_SetCode (s : StateDB) (a : Address) (c : list byte) :
  GetCode (SetCode s a c) a = c.
Proof.
  unfold GetCode, SetCode. rewrite getStateObject_updateObject.
  by rewrite decide_True.
Qed.

Lemma GetCodeHash_SetCode (s : StateDB) (a : Address) (c : list byte) :
  GetCodeHash (SetCode s a c) a = Keccak256Hash c.
Proof.
  unfold GetCodeHash, SetCode. rewrite getStateObject_updateObject.
  by rewrite decide_True.
Qed.

Lemma Exist_AddBalance (s : StateDB) (addr : Address) (amount : Z) :
  Exist (AddBalance s addr amount) addr = true.
Proof.
  unfold Exist. apply bool_decide_eq_true.
  unfold AddBalance, GetOrNewStateObject, setBalance.
  destruct (getStateObject s addr) as [a|] eqn:E; destruct (amount =? 0);
    try destruct (empty _); rewrite ?getStateObject_updateObject,
      ?decide_True by done; unfold getStateObject in *; simpl;
    rewrite ?lookup_insert_eq; eauto.
Qed.

(** A zero-amount increment on an absent account leaves a touch. *)
Lemma isTouched_AddBalance_absent (s : StateDB) (addr : Address) :
  Exist s addr = false → isTouched (AddBalance s addr 0) addr = true.
Proof.
  unfold Exist, isTouched. intros Hex. apply bool_decide_eq_false in Hex.
  apply bool_decide_eq_true.
  unfold AddBalance, GetOrNewStateObject.
  destruct (getStateObject s addr) as [a|] eqn:E.
  - exfalso. apply Hex. eauto.
  - simpl. unfold empty, newObject; simpl. rewrite Z.eqb_refl. simpl.
    set_solver.
Qed.

Lemma GetNonce_AddBalance (s : StateDB) (a b : Address) (amount : Z) :
  GetNonce (AddBalance s a amount) b = GetNonce s b.
Proof.
  unfold AddBalance, GetOrNewStateObject, setBalance, GetNonce.
  destruct (getStateObject s a) as [acc|] eqn:E; destruct (amount =? 0);
    try destruct (empty _); rewrite ?getStateObject_updateObject;
    unfold getStateObject in *; simpl;
    rewrite ?lookup_insert; repeat case_decide; subst;
    rewrite ?E; simpl; rewrite ?E; reflexivity.
Qed.

Lemma GetNonce_SubBalance (s : StateDB) (a b : Address) (amount : Z) :
  GetNonce (SubBalance s a amount) b = GetNonce s b.
Proof.
  unfold SubBalance, GetOrNewStateObject, setBalance, GetNonce.
  destruct (getStateObject s a) as [acc|] eqn:E; destruct (amount =? 0);
    rewrite ?getStateObject_updateObject;
    unfold getStateObject in *; simpl;
    rewrite ?lookup_insert; repeat case_decide; subst;
    rewrite ?E; simpl; rewrite ?E; reflexivity.
Qed.

End StoreFacts.

(** ** The orchestrator *)

Section OrchestratorFacts.
Context `{Crypto} `{Precompiles} `{EVMInterpreter} `{ProtocolParams}.

Lemma takeSnapshot_eq (evm : EVM) :
  takeSnapshot evm =
  (nextRevisionId (stateDB evm),
   set_stateDB (snd (Snapshot (stateDB evm))) evm).
Proof. reflexivity. Qed.

Lemma stateDB_deferredCapture (registered top : bool) (startGas : Z)
    (ret : list byte) (gas : Z) (err : option Error) (evm : EVM) :
  ∃ evm', deferredCapture registered top startGas (ret, gas, err, evm) =
          (ret, gas, err, evm') ∧ stateDB evm' = stateDB evm.
Proof.
  unfold deferredCapture. destruct registered; eauto.
Qed.

Lemma stateDB_Call_pingTracer (evm : EVM) (caller : ContractRef)
    (addr : Address) (input : list byte) (gas value : Z) :
  stateDB (Call_pingTracer evm caller addr input gas value) = stateDB evm.
Proof.
  unfold Call_pingTracer.
  destruct (Debug (config evm)); [destruct (depth evm =? 0)|]; reflexivity.
Qed.

(** What the error handling of the call variants does with an error. *)
Lemma revertOnError_error (snapshot : Z) (ret : list byte) (g : Z)
    (e : Error) (evm : EVM) :
  revertOnError snapshot (ret, g, Some e, evm) =
  (ret, (if decide (e = ErrExecutionReverted) then g else 0), Some e,
   set_stateDB (RevertToSnapshot (stateDB evm) snapshot) evm).
Proof. reflexivity. Qed.

Lemma passesChecks_depth (v : CallVariant) (evm : EVM) (caller : ContractRef)
    (value : Z) :
  passesChecks v evm caller value = true →
  (depth evm >? params.CallCreateDepth) = false.
Proof.
  unfold passesChecks. intros Hp. apply andb_prop in Hp as [Hd _].
  by apply negb_true_iff in Hd.
Qed.

Lemma gtb_limit_false (d : Z) :
  d <= params.CallCreateDepth → (d >? params.CallCreateDepth) = false.
Proof. intros Hd. rewrite Z.gtb_ltb. apply Z.ltb_ge. lia. Qed.

Lemma chainRules_entered (v : CallVariant) (evm : EVM)
    (caller : ContractRef) (addr : Address) (input : list byte)
    (gas value : Z) :
  chainRules (entered v evm caller addr input gas value) = chainRules evm.
Proof.
  destruct v; unfold entered, Call_setup, StaticCall_setup, enterHook;
    rewrite takeSnapshot_eq; simpl;
    repeat match goal with
           | |- context [if ?b then _ else _] => destruct b
           end; reflexivity.
Qed.

Lemma precompile_entered (v : CallVariant) (evm : EVM)
    (caller : ContractRef) (addr a : Address) (input : list byte)
    (gas value : Z) :
  precompile (entered v evm caller addr input gas value) a = precompile evm a.
Proof. unfold precompile. by rewrite chainRules_entered. Qed.

(** The four call variants, past their checks, in terms of the machine
    they hand to the dispatched execution. *)
Lemma Call_frame_eq (evm : EVM) (caller : ContractRef) (addr : Address)
    (input : list byte) (gas value : Z) :
  Call_frame evm caller addr input gas value =
  if Call_noop (snd (takeSnapshot evm)) addr value then
    ([], gas, None,
     Call_pingTracer (snd (takeSnapshot evm)) caller addr input gas value)
  else
    deferredCapture (Debug (config evm)) (depth evm =? 0) gas
      (revertOnError (fst (takeSnapshot evm))
         (Call_dispatch (entered VCall evm caller addr input gas value)
            (precompile evm addr) caller addr input gas value)).
Proof. reflexivity. Qed.

Lemma Call_checked (evm : EVM) (caller : ContractRef) (addr : Address)
    (input : list byte) (gas value : Z) :
  passesChecks VCall evm caller value = true →
  Call evm caller addr input gas value =
  Call_frame evm caller addr input gas value.
Proof.
  unfold passesChecks, Call. intros Hp.
  apply andb_prop in Hp as [Hd Hg]. apply negb_true_iff in Hd.
  rewrite Hd. destruct (value =? 0); simpl in *; [reflexivity|].
  by rewrite Hg.
Qed.

Lemma CallCode_checked (evm : EVM) (caller : ContractRef) (addr : Address)
    (input : list byte) (gas value : Z) :
  passesChecks VCallCode evm caller value = true →
  CallCode evm caller addr input gas value =
  deferredCapture (Debug (config evm)) false gas
    (revertOnError (fst (takeSnapshot evm))
       (CallCode_dispatch (entered VCallCode evm caller addr input gas value)
          caller addr input gas value)).
Proof.
  unfold passesChecks, CallCode. intros Hp.
  apply andb_prop in Hp as [Hd Hg]. apply negb_true_iff in Hd.
  by rewrite Hd, Hg.
Qed.

Lemma DelegateCall_checked (evm : EVM) (caller : ContractRef)
    (addr : Address) (input : list byte) (gas value : Z) :
  passesChecks VDelegateCall evm caller value = true →
  DelegateCall evm caller addr input gas =
  o ← DelegateCall_dispatch
         (entered VDelegateCall evm caller addr input gas value)
         caller addr input gas;
  Some (deferredCapture (Debug (config evm)) false gas
          (revertOnError (fst (takeSnapshot evm)) o)).
Proof.
  intros Hp. apply passesChecks_depth in Hp.
  unfold DelegateCall. by rewrite Hp.
Qed.

Lemma StaticCall_checked (evm : EVM) (caller : ContractRef)
    (addr : Address) (input : list byte) (gas value : Z) :
  passesChecks VStaticCall evm caller value = true →
  StaticCall evm caller addr input gas =
  deferredCapture (Debug (config evm)) false gas
    (revertOnError (fst (takeSnapshot evm))
       (StaticCall_dispatch
          (entered VStaticCall evm caller addr input gas value)
          caller addr input gas)).
Proof.
  intros Hp. apply passesChecks_depth in Hp.
  unfold StaticCall. by rewrite Hp.
Qed.

(** C1: for every call variant, whenever the dispatched execution
    (precompile or interpreter) returns a non-nil error, the state store is
    rolled back to the snapshot taken by that frame, and the returned
    leftover gas is zero unless the error is exactly
    [ErrExecutionReverted], in which case the leftover gas reported by the
    frame is returned unchanged.  Rolling back restores the world the frame
    was entered with as long as the checkpoint of the frame is still the
    one it took. *)
Theorem dispatch_error_reverts_and_consumes_gas (v : CallVariant)
    (evm : EVM) (caller : ContractRef) (addr : Address) (input : list byte)
    (gas value : Z) (ret : list byte) (g : Z) (e : Error) (evm1 : EVM) :
  passesChecks v evm caller value = true →
  dispatched v evm caller addr input gas value = Some (ret, g, Some e, evm1) →
  ∃ evm',
    invoke v evm caller addr input gas value =
      Some (ret, (if decide (e = ErrExecutionReverted) then g else 0),
            Some e, evm') ∧
    stateDB evm' =
      RevertToSnapshot (stateDB evm1) (fst (takeSnapshot evm)) ∧
    (checkpoint (stateDB evm1) (fst (takeSnapshot evm))
       = Some (world (stateDB evm)) →
     world (stateDB evm') = world (stateDB evm)).
Proof.
  intros Hp Hd. pose proof (passesChecks_depth _ _ _ _ Hp) as Hdepth.
  assert (Hfin : ∀ registered top,
    ∃ evm', deferredCapture registered top gas
              (revertOnError (fst (takeSnapshot evm)) (ret, g, Some e, evm1))
            = (ret, (if decide (e = ErrExecutionReverted) then g else 0),
               Some e, evm') ∧
            stateDB evm' =
              RevertToSnapshot (stateDB evm1) (fst (takeSnapshot evm)) ∧
            (checkpoint (stateDB evm1) (fst (takeSnapshot evm))
               = Some (world (stateDB evm)) →
             world (stateDB evm') = world (stateDB evm))).
  { intros registered top. rewrite revertOnError_error.
    destruct (stateDB_deferredCapture registered top gas ret
                (if decide (e = ErrExecutionReverted) then g else 0) (Some e)
                (set_stateDB
                   (RevertToSnapshot (stateDB evm1) (fst (takeSnapshot evm)))
                   evm1)) as (evm' & Heq & Hst).
    exists evm'. split; [exact Heq|]. split; [exact Hst|].
    intros Hck. rewrite Hst. simpl. by apply RevertToSnapshot_world. }
  destruct v; unfold invoke, dispatched in *.
  - (* Call *)
    rewrite (Call_checked _ _ _ _ _ _ Hp), Call_frame_eq.
    destruct (Call_noop _ addr value); [discriminate|].
    apply (inj Some) in Hd. rewrite Hd.
    destruct (Hfin (Debug (config evm)) (depth evm =? 0)) as (evm' & ? & ?).
    exists evm'. split; [by f_equal|done].
  - (* CallCode *)
    rewrite (CallCode_checked _ _ _ _ _ _ Hp).
    apply (inj Some) in Hd. rewrite Hd.
    destruct (Hfin (Debug (config evm)) false) as (evm' & ? & ?).
    exists evm'. split; [by f_equal|done].
  - (* DelegateCall *)
    rewrite (DelegateCall_checked _ _ _ _ _ _ Hp), Hd. simpl.
    destruct (Hfin (Debug (config evm)) false) as (evm' & ? & ?).
    exists evm'. split; [by f_equal|done].
  - (* StaticCall *)
    rewrite (StaticCall_checked _ _ _ _ _ value Hp).
    apply (inj Some) in Hd. rewrite Hd.
    destruct (Hfin (Debug (config evm)) false) as (evm' & ? & ?).
    exists evm'. split; [by f_equal|done].
Qed.

(** C2 (as amended): every call or create variant invoked when the
    recursion depth exceeds the fixed maximum (1024) fails with
    [ErrDepth], returns leftover gas equal to the gas it was given, and
    leaves the machine, the state store included, exactly as it was. *)
Theorem depth_above_limit_fails (evm : EVM) (caller : ContractRef)
    (addr : Address) (input : list byte) (gas value : Z) (ch : codeAndHash)
    (address : Address) (typ : OpCode) (code : list byte) (salt : Z) :
  depth evm > params.CallCreateDepth →
  Call evm caller addr input gas value = ([], gas, Some ErrDepth, evm) ∧
  CallCode evm caller addr input gas value = ([], gas, Some ErrDepth, evm) ∧
  DelegateCall evm caller addr input gas
    = Some ([], gas, Some ErrDepth, evm) ∧
  StaticCall evm caller addr input gas = ([], gas, Some ErrDepth, evm) ∧
  create evm caller ch gas value address typ
    = ([], zeroAddress, gas, Some ErrDepth, evm) ∧
  Create evm caller code gas value
    = ([], zeroAddress, gas, Some ErrDepth, evm) ∧
  Create2 evm caller code gas value salt
    = ([], zeroAddress, gas, Some ErrDepth, evm).
Proof.
  intros Hd.
  assert (Hgt : (depth evm >? params.CallCreateDepth) = true)
    by (apply Z.gtb_lt; lia).
  unfold Call, CallCode, DelegateCall, StaticCall, Create, Create2,
    codeAndHash_Hash, create; simpl.
  rewrite Hgt. repeat split; reflexivity.
Qed.

(** C4: a [Call] that passes the depth check, to an address that does not
    exist in the state store and is not a precompile, with zero value,
    under post-EIP-158 rules, returns success with empty output and
    leftover gas equal to the given gas, and neither creates the account
    nor changes the world of the state store. *)
Theorem call_to_nonexistent_is_noop (evm : EVM) (caller : ContractRef)
    (addr : Address) (input : list byte) (gas : Z) :
  depth evm <= params.CallCreateDepth →
  Exist (stateDB evm) addr = false →
  precompile evm addr = None →
  params.IsEIP158 (chainRules evm) = true →
  ∃ evm',
    Call evm caller addr input gas 0 = ([], gas, None, evm') ∧
    world (stateDB evm') = world (stateDB evm) ∧
    Exist (stateDB evm') addr = false.
Proof.
  intros Hd Hex Hpre Hrule.
  assert (Hp : passesChecks VCall evm caller 0 = true).
  { unfold passesChecks.
    assert ((depth evm >? params.CallCreateDepth) = false) as ->
      by (by apply gtb_limit_false).
    reflexivity. }
  rewrite (Call_checked _ _ _ _ _ _ Hp), Call_frame_eq.
  assert (Hno : Call_noop (snd (takeSnapshot evm)) addr 0 = true).
  { unfold Call_noop.
    change (Exist (stateDB (snd (takeSnapshot evm))) addr)
      with (Exist (stateDB evm) addr).
    change (precompile (snd (takeSnapshot evm)) addr)
      with (precompile evm addr).
    change (chainRules (snd (takeSnapshot evm))) with (chainRules evm).
    by rewrite Hex, Hpre, Hrule. }
  rewrite Hno. eexists. split; [reflexivity|].
  rewrite stateDB_Call_pingTracer. split; [reflexivity|exact Hex].
Qed.

(** C10: in [StaticCall] the snapshot is taken before the zero-amount
    balance increment that touches the target: the checkpoint of the frame
    holds the world the frame was entered with, and the machine handed to
    the dispatched execution carries the touch.  When the dispatched
    execution returns an error the rollback restores the world of entry,
    the touch undone with everything else; when it succeeds nothing is
    rolled back, and for a precompile the touched account is there. *)
Theorem StaticCall_touch_follows_snapshot (evm : EVM) (caller : ContractRef)
    (addr : Address) (input : list byte) (gas : Z) (ret : list byte) (g : Z)
    (err : option Error) (evm1 : EVM) :
  depth evm <= params.CallCreateDepth →
  StaticCall_dispatch (entered VStaticCall evm caller addr input gas 0)
    caller addr input gas = (ret, g, err, evm1) →
  let pre := entered VStaticCall evm caller addr input gas 0 in
  let snapshot := fst (takeSnapshot evm) in
  (checkpoint (stateDB pre) snapshot = Some (world (stateDB evm)) ∧
   stateDB pre = AddBalance (snd (Snapshot (stateDB evm))) addr 0 ∧
   Exist (stateDB pre) addr = true) ∧
  ∃ g' evm',
    StaticCall evm caller addr input gas = (ret, g', err, evm') ∧
    match err with
    | Some e =>
        stateDB evm' = RevertToSnapshot (stateDB evm1) snapshot ∧
        (checkpoint (stateDB evm1) snapshot = Some (world (stateDB evm)) →
         world (stateDB evm') = world (stateDB evm))
    | None =>
        stateDB evm' = stateDB evm1 ∧
        (isPrecompile (precompile evm addr) = true →
         stateDB evm' = stateDB pre ∧ Exist (stateDB evm') addr = true)
    end.
Proof.
  intros Hd Hdisp pre snapshot.
  assert (Hp : passesChecks VStaticCall evm caller 0 = true).
  { unfold passesChecks.
    assert ((depth evm >? params.CallCreateDepth) = false) as ->
      by (by apply gtb_limit_false).
    reflexivity. }
  assert (Hpre : stateDB pre = AddBalance (snd (Snapshot (stateDB evm))) addr 0).
  { unfold pre, entered, StaticCall_setup, enterHook. rewrite takeSnapshot_eq.
    simpl. by destruct (Debug (config evm)). }
  split.
  - split; [|split; [exact Hpre|]].
    + rewrite Hpre, checkpoint_AddBalance. apply checkpoint_Snapshot.
    + rewrite Hpre. apply Exist_AddBalance.
  - rewrite (StaticCall_checked _ _ _ _ _ 0 Hp), Hdisp.
    destruct err as [e|].
    + rewrite revertOnError_error.
      destruct (stateDB_deferredCapture (Debug (config evm)) false gas ret
                  (if decide (e = ErrExecutionReverted) then g else 0)
                  (Some e)
                  (set_stateDB
                     (RevertToSnapshot (stateDB evm1) (fst (takeSnapshot evm)))
                     evm1)) as (evm' & Heq & Hst).
      exists (if decide (e = ErrExecutionReverted) then g else 0), evm'.
      split; [exact Heq|]. split; [exact Hst|].
      intros Hck. rewrite Hst. simpl. by apply RevertToSnapshot_world.
    + destruct (stateDB_deferredCapture (Debug (config evm)) false gas ret g
                  None evm1) as (evm' & Heq & Hst).
      exists g, evm'. split; [exact Heq|]. split; [exact Hst|].
      intros Hpc. unfold StaticCall_dispatch in Hdisp.
      rewrite precompile_entered in Hdisp.
      destruct (precompile evm addr) as [p|]; [|discriminate].
      destruct (RunPrecompiledContract p input gas) as [[r1 g1] e1].
      cbv beta iota in Hdisp.
      assert (evm1 = pre) as -> by (subst pre; congruence).
      rewrite Hst. split; [reflexivity|].
      rewrite Hpre. apply Exist_AddBalance.
Qed.

(** *** Contract creation *)

Lemma create_checked (evm : EVM) (caller : ContractRef) (ch : codeAndHash)
    (gas value : Z) (address : Address) (typ : OpCode) :
  create_passesChecks evm caller value = true →
  create evm caller ch gas value address typ =
  if create_collision (create_bump evm caller address) address
  then ([], zeroAddress, 0, Some ErrContractAddressCollision,
        create_bump evm caller address)
  else create_frame (create_bump evm caller address) caller ch gas value
         address typ.
Proof.
  unfold create_passesChecks, create. intros Hp.
  apply andb_prop in Hp as [Hp Ho]. apply andb_prop in Hp as [Hd Hg].
  apply negb_true_iff in Hd, Ho. by rewrite Hd, Hg, Ho.
Qed.

Lemma create_frame_eq (evm : EVM) (caller : ContractRef) (ch : codeAndHash)
    (gas value : Z) (address : Address) (typ : OpCode) :
  create_frame (create_bump evm caller address) caller ch gas value address
    typ =
  let '(ret, err, contract, evm1) :=
    create_run evm caller ch gas value address typ in
  let '(err, contract, evm2) :=
    create_validate evm1 address ret err contract in
  let '(contract, evm3) :=
    create_revertOnError (fst (takeSnapshot (create_bump evm caller address)))
      err contract evm2 in
  (ret, address, Gas contract, err,
   create_captureEnd evm3 ret gas contract err).
Proof. reflexivity. Qed.

Lemma stateDB_create_captureEnd (evm : EVM) (ret : list byte) (gas : Z)
    (contract : Contract) (err : option Error) :
  stateDB (create_captureEnd evm ret gas contract err) = stateDB evm.
Proof.
  unfold create_captureEnd.
  destruct (Debug (config evm)); [destruct (depth evm =? 0)|]; reflexivity.
Qed.

Lemma chainRules_create_captureEnd (evm : EVM) (ret : list byte) (gas : Z)
    (contract : Contract) (err : option Error) :
  chainRules (create_captureEnd evm ret gas contract err) = chainRules evm.
Proof.
  unfold create_captureEnd.
  destruct (Debug (config evm)); [destruct (depth evm =? 0)|]; reflexivity.
Qed.

(** A failed validation changes neither the frame nor the machine. *)
Lemma create_validate_error (evm : EVM) (address : Address)
    (ret : list byte) (err0 : option Error) (c : Contract) (e : Error) :
  fst (fst (create_validate evm address ret err0 c)) = Some e →
  create_validate evm address ret err0 c = (Some e, c, evm).
Proof.
  unfold create_validate, UseGas.
  destruct err0 as [e0|]; simpl;
    repeat (match goal with
            | |- context [if ?b then _ else _] => destruct b
            end; simpl);
    intros Heq; try discriminate; by injection Heq as <-.
Qed.

(** The validation of an output produced without error, case by case. *)
Lemma create_validate_success (evm : EVM) (address : Address)
    (ret : list byte) (c : Contract) :
  create_validate evm address ret None c =
  if params.IsEIP158 (chainRules evm) && (Z.of_nat (length ret) >? MaxCodeSize)
  then (Some ErrMaxCodeSizeExceeded, c, evm)
  else if params.IsLondon (chainRules evm) && startsWithEF ret
  then (Some ErrInvalidCode, c, evm)
  else if Gas c <? createDataGas ret
  then (Some ErrCodeStoreOutOfGas, c, evm)
  else (None, set_Gas (Gas c - createDataGas ret) c,
        set_stateDB (SetCode (stateDB evm) address ret) evm).
Proof.
  unfold create_validate, UseGas.
  destruct (params.IsEIP158 (chainRules evm));
    destruct (Z.of_nat (length ret) >? MaxCodeSize); simpl; try reflexivity;
    destruct (params.IsLondon (chainRules evm)); destruct ret as [|b ret];
    simpl; try destruct (Byte.eqb b xef); simpl;
    try destruct (Gas c <? _); reflexivity.
Qed.

Lemma startsWithEF_head (ret : list byte) :
  startsWithEF ret = bool_decide (head ret = Some xef).
Proof.
  destruct ret as [|b ret]; simpl; [reflexivity|].
  destruct (Byte.eqb b xef) eqn:E.
  - apply Byte.byte_dec_bl in E. subst. reflexivity.
  - symmetry. apply bool_decide_eq_false. intros [= ->].
    by rewrite (Byte.byte_dec_lb eq_refl) in E.
Qed.

Lemma createDataGas_small (ret : list byte) :
  Z.of_nat (length ret) * params.CreateDataGas < 2 ^ 64 →
  createDataGas ret = Z.of_nat (length ret) * params.CreateDataGas.
Proof.
  intros Hlt. unfold createDataGas, wrap64, params.CreateDataGas in *.
  rewrite (Z.mod_small (Z.of_nat (length ret))) by lia.
  apply Z.mod_small. lia.
Qed.

Lemma wrap64_succ (n : Z) :
  is_uint64 n → (wrap64 (n + 1) <? n) = false → wrap64 (n + 1) = n + 1.
Proof.
  unfold wrap64, is_uint64. intros Hn Hov. apply Z.ltb_ge in Hov.
  destruct (Z.eq_dec (n + 1) (2 ^ 64)) as [Heq|Hne].
  - rewrite Heq, Z_mod_same_full in Hov. lia.
  - apply Z.mod_small. lia.
Qed.

Lemma create_passesChecks_nonce (evm : EVM) (caller : ContractRef)
    (value : Z) :
  create_passesChecks evm caller value = true →
  is_uint64 (GetNonce (stateDB evm) (Address_of caller)) →
  wrap64 (GetNonce (stateDB evm) (Address_of caller) + 1)
  = GetNonce (stateDB evm) (Address_of caller) + 1.
Proof.
  unfold create_passesChecks, create_nonceOverflow. intros Hp Hn.
  apply andb_prop in Hp as [_ Ho]. apply negb_true_iff in Ho.
  by apply wrap64_succ.
Qed.

(** What the mutations that precede the snapshot change. *)
Lemma GetNonce_create_bump (evm : EVM) (caller : ContractRef)
    (address : Address) :
  GetNonce (stateDB (create_bump evm caller address)) (Address_of caller)
  = wrap64 (GetNonce (stateDB evm) (Address_of caller) + 1).
Proof.
  unfold create_bump. simpl.
  destruct (params.IsBerlin (chainRules evm)); simpl;
    [change (GetNonce (AddAddressToAccessList ?s ?x) ?a) with (GetNonce s a)|];
    apply GetNonce_SetNonce_eq.
Qed.

Lemma GetNonce_create_bump_ne (evm : EVM) (caller : ContractRef)
    (address a : Address) :
  Address_of caller ≠ a →
  GetNonce (stateDB (create_bump evm caller address)) a
  = GetNonce (stateDB evm) a.
Proof.
  intros Hne. unfold create_bump. simpl.
  destruct (params.IsBerlin (chainRules evm)); simpl;
    [change (GetNonce (AddAddressToAccessList ?s ?x) ?a) with (GetNonce s a)|];
    by apply GetNonce_SetNonce_ne.
Qed.

Lemma GetCodeHash_create_bump_ne (evm : EVM) (caller : ContractRef)
    (address a : Address) :
  Address_of caller ≠ a →
  GetCodeHash (stateDB (create_bump evm caller address)) a
  = GetCodeHash (stateDB evm) a.
Proof.
  intros Hne. unfold create_bump. simpl.
  destruct (params.IsBerlin (chainRules evm)); simpl;
    [change (GetCodeHash (AddAddressToAccessList ?s ?x) ?a)
       with (GetCodeHash s a)|];
    by apply GetCodeHash_SetNonce_ne.
Qed.

Lemma validRevisions_create_bump (evm : EVM) (caller : ContractRef)
    (address : Address) :
  validRevisions (stateDB (create_bump evm caller address))
  = validRevisions (stateDB evm).
Proof.
  unfold create_bump, SetNonce. simpl.
  destruct (params.IsBerlin (chainRules evm)); simpl;
    apply validRevisions_updateObject.
Qed.

Lemma AddressInAccessList_create_bump (evm : EVM) (caller : ContractRef)
    (address : Address) :
  params.IsBerlin (chainRules evm) = true →
  AddressInAccessList (stateDB (create_bump evm caller address)) address
  = true.
Proof.
  intros Hb. unfold create_bump. simpl. rewrite Hb. simpl.
  unfold AddressInAccessList. apply bool_decide_eq_true. simpl. set_solver.
Qed.

(** C3 (as amended): for every create attempt that passes the depth,
    balance and nonce-overflow checks and whose target address already has
    a non-zero nonce, or a code hash that is neither the zero hash nor the
    empty-code hash, create fails with [ErrContractAddressCollision] and
    returns leftover gas zero: all the gas given is consumed.  No snapshot
    was taken, and the nonce of the caller stays incremented by 1. *)
Theorem create_collision_consumes_all_gas (evm : EVM) (caller : ContractRef)
    (ch : codeAndHash) (gas value : Z) (address : Address) (typ : OpCode) :
  create_passesChecks evm caller value = true →
  is_uint64 (GetNonce (stateDB evm) (Address_of caller)) →
  GetNonce (stateDB evm) address ≠ 0 ∨
    (GetCodeHash (stateDB evm) address ≠ zeroHash ∧
     GetCodeHash (stateDB evm) address ≠ emptyCodeHash) →
  ∃ evm',
    create evm caller ch gas value address typ
      = ([], zeroAddress, 0, Some ErrContractAddressCollision, evm') ∧
    GetNonce (stateDB evm') (Address_of caller)
      = GetNonce (stateDB evm) (Address_of caller) + 1 ∧
    validRevisions (stateDB evm') = validRevisions (stateDB evm).
Proof.
  intros Hp Hn Hcol.
  pose proof (create_passesChecks_nonce _ _ _ Hp Hn) as Hw.
  rewrite (create_checked _ _ _ _ _ _ _ Hp).
  assert (Hc : create_collision (create_bump evm caller address) address
               = true).
  { unfold create_collision.
    destruct (decide (Address_of caller = address)) as [<-|Hne].
    - rewrite GetNonce_create_bump, Hw.
      assert ((GetNonce (stateDB evm) (Address_of caller) + 1 =? 0) = false)
        as -> by (apply Z.eqb_neq; unfold is_uint64 in Hn; lia).
      reflexivity.
    - rewrite GetNonce_create_bump_ne, GetCodeHash_create_bump_ne by done.
      destruct Hcol as [Hnz|[Hz He]].
      + apply Z.eqb_neq in Hnz. by rewrite Hnz.
      + apply Z.eqb_neq in Hz, He. rewrite Hz, He. simpl.
        apply orb_true_r. }
  rewrite Hc. eexists. split; [reflexivity|]. split.
  - by rewrite GetNonce_create_bump.
  - apply validRevisions_create_bump.
Qed.

(** C6: in create, after an interpreter run that returned no error, the
    validations apply in this order, and the output is returned in every
    case: under EIP-158 an output longer than the maximum code size gives
    [ErrMaxCodeSizeExceeded]; else under London an output whose first byte
    is 0xEF gives [ErrInvalidCode]; else the charge of output length times
    [CreateDataGas] is deducted from the gas left in the frame, giving
    [ErrCodeStoreOutOfGas] when the gas does not suffice and otherwise
    storing the output as the code of the new address. *)
Theorem create_validations_in_order (evm : EVM) (caller : ContractRef)
    (ch : codeAndHash) (gas value : Z) (address : Address) (typ : OpCode)
    (ret : list byte) (c1 : Contract) (evm1 : EVM) :
  create_passesChecks evm caller value = true →
  create_collision (create_bump evm caller address) address = false →
  create_run evm caller ch gas value address typ = (ret, None, c1, evm1) →
  Z.of_nat (length ret) * params.CreateDataGas < 2 ^ 64 →
  let charge := Z.of_nat (length ret) * params.CreateDataGas in
  ∃ g' err evm',
    create evm caller ch gas value address typ
      = (ret, address, g', err, evm') ∧
    if params.IsEIP158 (chainRules evm1) &&
       (Z.of_nat (length ret) >? MaxCodeSize)
    then err = Some ErrMaxCodeSizeExceeded
    else if params.IsLondon (chainRules evm1) &&
            bool_decide (head ret = Some xef)
    then err = Some ErrInvalidCode
    else if Gas c1 <? charge
    then err = Some ErrCodeStoreOutOfGas
    else err = None ∧ g' = Gas c1 - charge ∧
         GetCode (stateDB evm') address = ret.
Proof.
  intros Hp Hcol Hrun Hlen charge.
  rewrite (create_checked _ _ _ _ _ _ _ Hp), Hcol, create_frame_eq, Hrun.
  rewrite create_validate_success, startsWithEF_head,
    (createDataGas_small _ Hlen).
  fold charge.
  destruct (params.IsEIP158 (chainRules evm1) &&
            (Z.of_nat (length ret) >? MaxCodeSize)).
  { destruct (create_revertOnError _ _ c1 evm1) as [c3 evm3]. eauto. }
  destruct (params.IsLondon (chainRules evm1) &&
            bool_decide (head ret = Some xef)).
  { destruct (create_revertOnError _ _ c1 evm1) as [c3 evm3]. eauto. }
  destruct (Gas c1 <? charge).
  { destruct (create_revertOnError _ _ c1 evm1) as [c3 evm3]. eauto. }
  simpl. do 3 eexists. split; [reflexivity|].
  split; [reflexivity|]. split; [reflexivity|].
  rewrite stateDB_create_captureEnd. simpl. apply GetCode_SetCode.
Qed.

Lemma create_revertOnError_error (snapshot : Z) (e : Error) (c : Contract)
    (evm : EVM) :
  create_revertOnError snapshot (Some e) c evm =
  if params.IsHomestead (chainRules evm) ||
     negb (bool_decide (e = ErrCodeStoreOutOfGas))
  then
    ((if decide (e = ErrExecutionReverted) then c else set_Gas 0 c),
     set_stateDB (RevertToSnapshot (stateDB evm) snapshot) evm)
  else (c, evm).
Proof.
  unfold create_revertOnError, UseGas.
  destruct (_ || _); [|reflexivity].
  destruct (decide (e = ErrExecutionReverted)); [reflexivity|].
  by rewrite Z.ltb_irrefl, Z.sub_diag.
Qed.

(** C5: in create, when the run of the deployment code or a validation
    after it gives an error, the state is rolled back to the snapshot of
    the frame in every case but one: [ErrCodeStoreOutOfGas] before
    Homestead rolls nothing back and leaves the gas of the frame as it is,
    so that what the frame did to the state persists.  With a rollback
    every error other than [ErrExecutionReverted] consumes all the gas
    that remains in the frame. *)
Theorem create_error_rolls_back_except_legacy_code_store (evm : EVM)
    (caller : ContractRef) (ch : codeAndHash) (gas value : Z)
    (address : Address) (typ : OpCode) (ret : list byte)
    (err0 : option Error) (c1 : Contract) (evm1 : EVM) (e : Error) :
  create_passesChecks evm caller value = true →
  create_collision (create_bump evm caller address) address = false →
  create_run evm caller ch gas value address typ = (ret, err0, c1, evm1) →
  fst (fst (create_validate evm1 address ret err0 c1)) = Some e →
  let evm0 := create_bump evm caller address in
  let snapshot := fst (takeSnapshot evm0) in
  ∃ g' evm',
    create evm caller ch gas value address typ
      = (ret, address, g', Some e, evm') ∧
    (params.IsHomestead (chainRules evm1) = true ∨ e ≠ ErrCodeStoreOutOfGas →
     stateDB evm' = RevertToSnapshot (stateDB evm1) snapshot ∧
     (checkpoint (stateDB evm1) snapshot = Some (world (stateDB evm0)) →
      world (stateDB evm') = world (stateDB evm0)) ∧
     g' = if decide (e = ErrExecutionReverted) then Gas c1 else 0) ∧
    (params.IsHomestead (chainRules evm1) = false ∧ e = ErrCodeStoreOutOfGas →
     stateDB evm' = stateDB evm1 ∧ g' = Gas c1).
Proof.
  intros Hp Hcol Hrun Hval evm0 snapshot.
  rewrite (create_checked _ _ _ _ _ _ _ Hp), Hcol, create_frame_eq, Hrun.
  rewrite (create_validate_error _ _ _ _ _ _ Hval).
  fold evm0. fold snapshot. rewrite create_revertOnError_error.
  destruct (params.IsHomestead (chainRules evm1)) eqn:Hh;
    destruct (bool_decide (e = ErrCodeStoreOutOfGas)) eqn:Hb; simpl.
  4: {
    do 2 eexists. split; [reflexivity|]. split.
    - intros _. rewrite stateDB_create_captureEnd. simpl.
      split; [reflexivity|]. split.
      + intros Hck. by apply RevertToSnapshot_world.
      + by destruct (decide (e = ErrExecutionReverted)).
    - intros [_ ->]. by apply bool_decide_eq_false in Hb. }
  3: {
    (* before Homestead, code storage error: nothing is rolled back *)
    do 2 eexists. split; [reflexivity|]. split.
    - intros [?|Hne]; [discriminate|]. by apply bool_decide_eq_true in Hb.
    - intros _. by rewrite stateDB_create_captureEnd. }
  all: do 2 eexists; (split; [reflexivity|]); split;
    [ intros _; rewrite stateDB_create_captureEnd; simpl;
      split; [reflexivity|]; split;
      [ intros Hck; by apply RevertToSnapshot_world
      | by destruct (decide (e = ErrExecutionReverted)) ]
    | intros [? _]; discriminate ].
Qed.

(** *** Gas *)

Lemma createDataGas_nonneg (ret : list byte) : 0 <= createDataGas ret.
Proof. unfold createDataGas, wrap64. apply Z.mod_pos_bound. lia. Qed.

(** The validation never adds gas to the frame. *)
Lemma create_validate_gas (evm : EVM) (address : Address) (ret : list byte)
    (err0 : option Error) (c : Contract) :
  0 <= Gas c →
  0 <= Gas (snd (fst (create_validate evm address ret err0 c))) <= Gas c.
Proof.
  intros Hc. pose proof (createDataGas_nonneg ret) as Hd.
  unfold create_validate, UseGas.
  destruct err0 as [e0|]; simpl;
    repeat (match goal with
            | |- context [if ?b then _ else _] => destruct b eqn:?
            end; simpl); lia.
Qed.

Lemma dispatched_gas (v : CallVariant) (evm : EVM) (caller : ContractRef)
    (addr : Address) (input : list byte) (gas value : Z) (ret : list byte)
    (g : Z) (err : option Error) (evm1 : EVM) :
  precompiles_conserve_gas → interpreter_conserves_gas → 0 <= gas →
  dispatched v evm caller addr input gas value = Some (ret, g, err, evm1) →
  0 <= g <= gas.
Proof.
  intros Hpre Hrun Hgas Hd.
  assert (Hp : ∀ a p pre, precompile evm a = Some p →
    (let '(r, g0, e0) := RunPrecompiledContract p input gas in
     (r, g0, e0, pre)) = (ret, g, err, evm1) → 0 <= g <= gas).
  { intros a p pre Hsome Heq. pose proof (Hpre evm a p input gas Hsome Hgas).
    destruct (RunPrecompiledContract p input gas) as [[r g0] e0].
    simpl in *. congruence. }
  assert (Hi : ∀ pre c ro, Gas c = gas →
    (let '(r, e0, c', m) := Run pre c input ro in (r, Gas c', e0, m))
    = (ret, g, err, evm1) → 0 <= g <= gas).
  { intros pre c ro Hc Heq. pose proof (Hrun pre c input ro) as Hb.
    rewrite Hc in Hb. specialize (Hb Hgas).
    destruct (Run pre c input ro) as [[[r e0] c'] m]. simpl in *.
    congruence. }
  destruct v; unfold dispatched in Hd.
  - destruct (Call_noop _ addr value); [discriminate|].
    apply (inj Some) in Hd. unfold Call_dispatch in Hd.
    destruct (precompile evm addr) as [p|] eqn:Hsome; [by eapply Hp|].
    destruct (_ =? _)%nat; [injection Hd as _ <- _ _; lia|].
    refine (Hi _ _ _ _ Hd). reflexivity.
  - apply (inj Some) in Hd. unfold CallCode_dispatch in Hd.
    rewrite precompile_entered in Hd.
    destruct (precompile evm addr) as [p|] eqn:Hsome; [by eapply Hp|].
    refine (Hi _ _ _ _ Hd). reflexivity.
  - unfold DelegateCall_dispatch in Hd. rewrite precompile_entered in Hd.
    destruct (precompile evm addr) as [p|] eqn:Hsome.
    + destruct (RunPrecompiledContract p input gas) as [[r g0] e0] eqn:Hr.
      apply (inj Some) in Hd. eapply (Hp addr p); [done|]. by rewrite Hr.
    + destruct (AsDelegate _) as [c|] eqn:Has; [|discriminate]. simpl in Hd.
      set (c' := SetCallCode c addr _ _) in Hd.
      destruct (Run _ c' input false) as [[[r e0] c2] m] eqn:Hr.
      apply (inj Some) in Hd. eapply (Hi _ c' false); [|by rewrite Hr].
      unfold AsDelegate in Has. simpl in Has.
      destruct caller; [discriminate|]. by injection Has as <-.
  - apply (inj Some) in Hd. unfold StaticCall_dispatch in Hd.
    rewrite precompile_entered in Hd.
    destruct (precompile evm addr) as [p|] eqn:Hsome; [by eapply Hp|].
    refine (Hi _ _ _ _ Hd). reflexivity.
Qed.

(** A variant that passes its checks returns what its dispatched
    execution returned, put through the error handling. *)
Lemma invoke_checked (v : CallVariant) (evm : EVM) (caller : ContractRef)
    (addr : Address) (input : list byte) (gas value : Z) (o : CallOutcome) :
  passesChecks v evm caller value = true →
  invoke v evm caller addr input gas value = Some o →
  (dispatched v evm caller addr input gas value = None ∧
   v = VCall ∧ fst o = ([], gas, None)) ∨
  ∃ ret g err evm1 evm',
    dispatched v evm caller addr input gas value = Some (ret, g, err, evm1) ∧
    o = (ret,
         match err with
         | Some e => if decide (e = ErrExecutionReverted) then g else 0
         | None => g
         end, err, evm').
Proof.
  intros Hp Hinv.
  assert (Hfin : ∀ registered top ret g err evm1,
    ∃ evm', deferredCapture registered top gas
              (revertOnError (fst (takeSnapshot evm)) (ret, g, err, evm1))
            = (ret,
               match err with
               | Some e => if decide (e = ErrExecutionReverted) then g else 0
               | None => g
               end, err, evm')).
  { intros registered top ret g err evm1.
    destruct err as [e|]; simpl; destruct registered; eauto. }
  destruct v; unfold invoke, dispatched in *.
  - rewrite (Call_checked _ _ _ _ _ _ Hp), Call_frame_eq in Hinv.
    destruct (Call_noop _ addr value).
    + left. apply (inj Some) in Hinv. by subst o.
    + right. apply (inj Some) in Hinv. subst o.
      destruct (Call_dispatch _ _ caller addr input gas value)
        as [[[ret g] err] evm1].
      destruct (Hfin (Debug (config evm)) (depth evm =? 0) ret g err evm1)
        as [evm' Heq].
      exists ret, g, err, evm1, evm'. split; [reflexivity|exact Heq].
  - right. rewrite (CallCode_checked _ _ _ _ _ _ Hp) in Hinv.
    apply (inj Some) in Hinv. subst o.
    destruct (CallCode_dispatch _ caller addr input gas value)
      as [[[ret g] err] evm1].
    destruct (Hfin (Debug (config evm)) false ret g err evm1) as [evm' Heq].
    exists ret, g, err, evm1, evm'. split; [reflexivity|exact Heq].
  - right. rewrite (DelegateCall_checked _ _ _ _ _ _ Hp) in Hinv.
    destruct (DelegateCall_dispatch _ caller addr input gas)
      as [[[[ret g] err] evm1]|]; [|discriminate].
    simpl in Hinv. apply (inj Some) in Hinv. subst o.
    destruct (Hfin (Debug (config evm)) false ret g err evm1) as [evm' Heq].
    exists ret, g, err, evm1, evm'. split; [reflexivity|exact Heq].
  - right. rewrite (StaticCall_checked _ _ _ _ _ value Hp) in Hinv.
    apply (inj Some) in Hinv. subst o.
    destruct (StaticCall_dispatch _ caller addr input gas)
      as [[[ret g] err] evm1].
    destruct (Hfin (Debug (config evm)) false ret g err evm1) as [evm' Heq].
    exists ret, g, err, evm1, evm'. split; [reflexivity|exact Heq].
Qed.

(** A variant that fails a check returns the gas it was given. *)
Lemma invoke_unchecked (v : CallVariant) (evm : EVM) (caller : ContractRef)
    (addr : Address) (input : list byte) (gas value : Z) (ret : list byte)
    (g : Z) (err : option Error) (evm' : EVM) :
  passesChecks v evm caller value = false →
  invoke v evm caller addr input gas value = Some (ret, g, err, evm') →
  g = gas ∧ evm' = evm ∧
  (err = Some ErrDepth ∨ err = Some ErrInsufficientBalance).
Proof.
  unfold passesChecks. intros Hp Hinv.
  destruct (depth evm >? params.CallCreateDepth) eqn:Hd; simpl in Hp.
  - destruct v; unfold invoke, Call, CallCode, DelegateCall, StaticCall in Hinv;
      rewrite Hd in Hinv; injection Hinv as <- <- <- <-; auto.
  - destruct v; try discriminate;
      unfold invoke, Call, CallCode in Hinv; rewrite Hd in Hinv.
    + apply orb_false_elim in Hp as [Hv Hg]. rewrite Hv, Hg in Hinv.
      injection Hinv as <- <- <- <-; auto.
    + rewrite Hp in Hinv. injection Hinv as <- <- <- <-; auto.
Qed.

(** C9: [CallCode] evaluates the transfer guard for every call, also when
    the value is zero, and fails with [ErrInsufficientBalance] when the
    guard declines; [Call] fails on a declining guard only when the value
    is non-zero: with zero value it goes on to its frame whatever the
    guard answers, and any error it then returns is the error of its
    dispatched execution. *)
Theorem transfer_guard_CallCode_always_Call_nonzero (evm : EVM)
    (caller : ContractRef) (addr : Address) (input : list byte)
    (gas value : Z) :
  depth evm <= params.CallCreateDepth →
  CanTransfer (Context evm) (stateDB evm) (Address_of caller) value = false →
  CallCode evm caller addr input gas value
    = ([], gas, Some ErrInsufficientBalance, evm) ∧
  (value ≠ 0 →
   Call evm caller addr input gas value
     = ([], gas, Some ErrInsufficientBalance, evm)) ∧
  (value = 0 →
   Call evm caller addr input gas value
     = Call_frame evm caller addr input gas value ∧
   ∀ e, snd (fst (Call evm caller addr input gas value)) = Some e →
        ∃ ret g evm1,
          dispatched VCall evm caller addr input gas value
            = Some (ret, g, Some e, evm1)).
Proof.
  intros Hd Hg.
  pose proof (gtb_limit_false _ Hd) as Hdepth.
  split; [|split].
  - unfold CallCode. by rewrite Hdepth, Hg.
  - intros Hv. apply Z.eqb_neq in Hv. unfold Call.
    by rewrite Hdepth, Hv, Hg.
  - intros ->.
    assert (Hp : passesChecks VCall evm caller 0 = true)
      by (unfold passesChecks; by rewrite Hdepth).
    split; [by apply Call_checked|].
    intros e He.
    destruct (invoke_checked VCall evm caller addr input gas 0
                (Call evm caller addr input gas 0) Hp eq_refl)
      as [(_ & _ & Hno)|(ret & g & err & evm1 & evm' & Hdisp & Ho)].
    + rewrite Hno in He. discriminate.
    + rewrite Ho in He. simpl in He. subst err. eauto.
Qed.

Lemma chainRules_create_bump (evm : EVM) (caller : ContractRef)
    (address : Address) :
  chainRules (create_bump evm caller address) = chainRules evm.
Proof.
  unfold create_bump. simpl.
  by destruct (params.IsBerlin (chainRules evm)).
Qed.

Lemma Context_create_bump (evm : EVM) (caller : ContractRef)
    (address : Address) :
  Context (create_bump evm caller address) = Context evm.
Proof.
  unfold create_bump. simpl.
  by destruct (params.IsBerlin (chainRules evm)).
Qed.

Lemma create_gas (evm : EVM) (caller : ContractRef) (ch : codeAndHash)
    (gas value : Z) (address : Address) (typ : OpCode) (ret : list byte)
    (a : Address) (g : Z) (err : option Error) (evm' : EVM) :
  interpreter_conserves_gas → 0 <= gas →
  create evm caller ch gas value address typ = (ret, a, g, err, evm') →
  0 <= g <= gas ∧
  (create_passesChecks evm caller value = false → g = gas) ∧
  (create_passesChecks evm caller value = true →
   ∀ e, err = Some e → e ≠ ErrExecutionReverted →
        params.IsHomestead (chainRules evm') = true ∨
          e ≠ ErrCodeStoreOutOfGas →
        g = 0).
Proof.
  intros Hi Hgas Heq.
  destruct (create_passesChecks evm caller value) eqn:Hp.
  - rewrite (create_checked _ _ _ _ _ _ _ Hp) in Heq.
    destruct (create_collision _ address).
    { injection Heq as <- <- <- <- <-. repeat split; [lia..|done|done]. }
    rewrite create_frame_eq in Heq.
    pose proof (Hi (create_entered evm caller ch gas value address typ)
                  (create_contract caller ch gas value address) [] false Hgas)
      as Hb1.
    change (Gas (create_contract caller ch gas value address)) with gas in Hb1.
    fold (create_run evm caller ch gas value address typ) in Hb1.
    destruct (create_run evm caller ch gas value address typ)
      as [[[ret0 err0] c1] evm1].
    simpl in Hb1.
    pose proof (create_validate_gas evm1 address ret0 err0 c1 (proj1 Hb1))
      as Hb2.
    destruct (create_validate evm1 address ret0 err0 c1)
      as [[err1 c2] evm2] eqn:Hv.
    simpl in Hb2. destruct err1 as [e1|].
    + rewrite (create_validate_error evm1 address ret0 err0 c1 e1) in Hv
        by (by rewrite Hv).
      injection Hv as <- <-.
      rewrite create_revertOnError_error in Heq.
      destruct (_ || _) eqn:Hc.
      * destruct (decide (e1 = ErrExecutionReverted)) as [->|Hnr];
          injection Heq as <- <- <- <- <-; simpl.
        -- split; [lia|]. split; [done|]. intros _ e [= <-]. done.
        -- split; [lia|]. split; [done|]. done.
      * injection Heq as <- <- <- <- <-. split; [lia|]. split; [done|].
        intros _ e [= <-] _ Hor. exfalso.
        rewrite chainRules_create_captureEnd in Hor.
        apply orb_false_elim in Hc as [Hh Hb]. apply negb_false_iff in Hb.
        apply bool_decide_eq_true in Hb.
        destruct Hor as [Hor|Hor]; [congruence|done].
    + simpl in Heq. injection Heq as <- <- <- <- <-.
      split; [lia|]. split; [done|]. intros _ e ?. discriminate.
  - assert (Hg : g = gas).
    { unfold create_passesChecks in Hp. unfold create in Heq.
      destruct (depth evm >? params.CallCreateDepth);
        [by injection Heq as <- <- <- <- <-|].
      destruct (CanTransfer _ _ _ value);
        [|by injection Heq as <- <- <- <- <-].
      destruct (create_nonceOverflow evm caller);
        [by injection Heq as <- <- <- <- <-|discriminate]. }
    subst g. split; [lia|]. split; done.
Qed.

(** C7 (as amended): the leftover gas a call or create variant returns is
    never more than the gas it was given, provided that precompiles and
    interpreter report no more gas than they were handed.  A variant that
    fails one of its checks (depth, balance, nonce overflow) returns the
    gas it was given unchanged.  Past the checks, every error other than
    [ErrExecutionReverted] leaves leftover gas exactly zero, with the one
    exception of [ErrCodeStoreOutOfGas] in create before Homestead. *)
Theorem leftover_gas_bounded_and_consumed_on_error (evm : EVM)
    (caller : ContractRef) (addr : Address) (input : list byte)
    (gas value : Z) :
  precompiles_conserve_gas → interpreter_conserves_gas → 0 <= gas →
  (∀ v ret g err evm',
     invoke v evm caller addr input gas value = Some (ret, g, err, evm') →
     0 <= g <= gas ∧
     (passesChecks v evm caller value = false → g = gas) ∧
     (passesChecks v evm caller value = true →
      ∀ e, err = Some e → e ≠ ErrExecutionReverted → g = 0)) ∧
  (∀ ch address typ ret a g err evm',
     create evm caller ch gas value address typ = (ret, a, g, err, evm') →
     0 <= g <= gas ∧
     (create_passesChecks evm caller value = false → g = gas) ∧
     (create_passesChecks evm caller value = true →
      ∀ e, err = Some e → e ≠ ErrExecutionReverted →
           params.IsHomestead (chainRules evm') = true ∨
             e ≠ ErrCodeStoreOutOfGas →
           g = 0)) ∧
  (∀ code salt,
     0 <= snd (fst (fst (Create evm caller code gas value))) <= gas ∧
     0 <= snd (fst (fst (Create2 evm caller code gas value salt))) <= gas).
Proof.
  intros Hpre Hrun Hgas. split; [|split].
  - intros v ret g err evm' Hinv.
    destruct (passesChecks v evm caller value) eqn:Hp.
    + destruct (invoke_checked _ _ _ _ _ _ _ _ Hp Hinv)
        as [(_ & _ & Hno)|(ret1 & g1 & err1 & evm1 & evm2 & Hd & Ho)].
      * simpl in Hno. injection Hno as -> -> ->.
        split; [lia|]. split; [done|]. intros _ e ?. discriminate.
      * pose proof (dispatched_gas _ _ _ _ _ _ _ _ _ _ _ Hpre Hrun Hgas Hd)
          as Hb.
        injection Ho as -> -> -> ->. split; [|split; [done|]].
        -- destruct err1 as [e1|]; [|lia].
           destruct (decide (e1 = ErrExecutionReverted)); lia.
        -- intros _ e [= ->] Hne.
           by destruct (decide (e = ErrExecutionReverted)).
    + destruct (invoke_unchecked _ _ _ _ _ _ _ _ _ _ _ Hp Hinv) as (-> & _).
      split; [lia|]. split; done.
  - intros ch address typ ret a g err evm' Heq.
    by eapply create_gas.
  - intros code salt. split.
    + unfold Create.
      destruct (create evm caller _ gas value _ CREATE)
        as [[[[ret a] g] err] evm'] eqn:Heq.
      simpl. by eapply create_gas.
    + unfold Create2, codeAndHash_Hash. simpl.
      destruct (create evm caller _ gas value _ CREATE2)
        as [[[[ret a] g] err] evm'] eqn:Heq.
      simpl. by eapply create_gas.
Qed.

(** *** The nonce of the creator *)

Lemma GetNonce_world (s s' : StateDB) (a : Address) :
  world s = world s' → GetNonce s a = GetNonce s' a.
Proof. unfold GetNonce, getStateObject. by intros ->. Qed.

Lemma AddressInAccessList_world (s s' : StateDB) (a : Address) :
  world s = world s' → AddressInAccessList s a = AddressInAccessList s' a.
Proof. unfold AddressInAccessList. by intros ->. Qed.

(** Setting up the new account leaves the nonce of the creator alone, as
    long as the transfer function does. *)
Lemma GetNonce_create_entered (evm : EVM) (caller : ContractRef)
    (ch : codeAndHash) (gas value : Z) (address : Address) (typ : OpCode) :
  Address_of caller ≠ address →
  (∀ s, GetNonce (Transfer (Context evm) s (Address_of caller) address value)
          (Address_of caller) = GetNonce s (Address_of caller)) →
  GetNonce (stateDB (create_entered evm caller ch gas value address typ))
    (Address_of caller)
  = GetNonce (stateDB (create_bump evm caller address)) (Address_of caller).
Proof.
  intros Hne Ht. unfold create_entered, create_setup.
  rewrite takeSnapshot_eq. simpl.
  repeat match goal with
         | |- context [if ?b then _ else _] => destruct b
         end; simpl;
    rewrite Context_create_bump, Ht,
      ?GetNonce_SetNonce_ne, GetNonce_CreateAccount_ne by done;
    reflexivity.
Qed.

Lemma GetNonce_create_validate (evm : EVM) (address a : Address)
    (ret : list byte) (err0 : option Error) (c : Contract) :
  address ≠ a →
  GetNonce (stateDB (snd (create_validate evm address ret err0 c))) a
  = GetNonce (stateDB evm) a.
Proof.
  intros Hne. unfold create_validate, UseGas.
  destruct err0 as [e0|]; simpl;
    repeat (match goal with
            | |- context [if ?b then _ else _] => destruct b
            end; simpl);
    rewrite ?GetNonce_SetCode_ne by done; reflexivity.
Qed.

(** C8: in create, once the nonce of the caller has been incremented, no
    later step of that create decrements it.  The increment and the
    Berlin access-list marking precede the snapshot, so the checkpoint of
    the frame holds them, and the collision failure and every rollback
    leave the store with exactly the incremented nonce and the marking;
    on the paths without rollback the nonce is at least the incremented
    one, as long as the transfer and the run of the deployment code do not
    lower it themselves. *)
Theorem create_nonce_increment_is_never_undone (evm : EVM)
    (caller : ContractRef) (ch : codeAndHash) (gas value : Z)
    (address : Address) (typ : OpCode) (ret : list byte)
    (err0 : option Error) (c1 : Contract) (evm1 : EVM) :
  let n := GetNonce (stateDB evm) (Address_of caller) in
  let evm0 := create_bump evm caller address in
  let snapshot := fst (takeSnapshot evm0) in
  create_passesChecks evm caller value = true →
  is_uint64 n →
  (∀ s, GetNonce (Transfer (Context evm) s (Address_of caller) address value)
          (Address_of caller) = GetNonce s (Address_of caller)) →
  create_run evm caller ch gas value address typ = (ret, err0, c1, evm1) →
  GetNonce (stateDB (create_entered evm caller ch gas value address typ))
    (Address_of caller) <= GetNonce (stateDB evm1) (Address_of caller) →
  checkpoint (stateDB evm1) snapshot = Some (world (stateDB evm0)) →
  (GetNonce (stateDB evm0) (Address_of caller) = n + 1 ∧
   (params.IsBerlin (chainRules evm) = true →
    AddressInAccessList (stateDB evm0) address = true) ∧
   checkpoint (stateDB (snd (takeSnapshot evm0))) snapshot
     = Some (world (stateDB evm0))) ∧
  ∃ r a g err evm',
    create evm caller ch gas value address typ = (r, a, g, err, evm') ∧
    n + 1 <= GetNonce (stateDB evm') (Address_of caller) ∧
    (create_collision evm0 address = true ∨
     (∃ e, err = Some e ∧
           (params.IsHomestead (chainRules evm1) = true ∨
            e ≠ ErrCodeStoreOutOfGas)) →
     world (stateDB evm') = world (stateDB evm0) ∧
     GetNonce (stateDB evm') (Address_of caller) = n + 1 ∧
     (params.IsBerlin (chainRules evm) = true →
      AddressInAccessList (stateDB evm') address = true)).
Proof.
  intros n evm0 snapshot Hp Hn Ht Hrun Hmono Hkeep.
  assert (Hn1 : GetNonce (stateDB evm0) (Address_of caller) = n + 1).
  { unfold evm0. rewrite GetNonce_create_bump.
    exact (create_passesChecks_nonce _ _ _ Hp Hn). }
  assert (Hacc : params.IsBerlin (chainRules evm) = true →
                 AddressInAccessList (stateDB evm0) address = true)
    by apply AddressInAccessList_create_bump.
  split.
  { split; [exact Hn1|]. split; [exact Hacc|].
    apply (checkpoint_Snapshot (stateDB evm0)). }
  rewrite (create_checked _ _ _ _ _ _ _ Hp). fold evm0.
  destruct (create_collision evm0 address) eqn:Hcol.
  { do 5 eexists. split; [reflexivity|]. split; [lia|]. by intros _. }
  assert (Hne : Address_of caller ≠ address).
  { intros Heq. unfold create_collision in Hcol.
    apply orb_false_elim in Hcol as [Hz _].
    apply negb_false_iff, Z.eqb_eq in Hz. rewrite <- Heq in Hz.
    unfold is_uint64 in Hn. lia. }
  assert (Hge : n + 1 <= GetNonce (stateDB evm1) (Address_of caller)).
  { rewrite <- Hn1. unfold evm0.
    by rewrite <- (GetNonce_create_entered evm caller ch gas value address
                     typ Hne Ht). }
  unfold evm0. rewrite create_frame_eq, Hrun. fold evm0. fold snapshot.
  destruct (create_validate evm1 address ret err0 c1)
    as [[err1 c2] evm2] eqn:Hv.
  destruct err1 as [e1|].
  - rewrite (create_validate_error evm1 address ret err0 c1 e1) in Hv
      by (by rewrite Hv).
    injection Hv as <- <-. rewrite create_revertOnError_error.
    destruct (_ || _) eqn:Hc.
    + do 5 eexists. split; [reflexivity|].
      rewrite stateDB_create_captureEnd. simpl.
      pose proof (RevertToSnapshot_world _ _ _ Hkeep) as Hw.
      rewrite (GetNonce_world _ _ _ Hw), (AddressInAccessList_world _ _ _ Hw).
      split; [lia|]. by intros _.
    + do 5 eexists. split; [reflexivity|].
      rewrite stateDB_create_captureEnd. split; [exact Hge|].
      intros [?|(e & [= <-] & Hor)]; [discriminate|]. exfalso.
      apply orb_false_elim in Hc as [Hh Hb]. apply negb_false_iff in Hb.
      apply bool_decide_eq_true in Hb.
      destruct Hor as [Hor|Hor]; [congruence|done].
  - simpl. do 5 eexists. split; [reflexivity|].
    rewrite stateDB_create_captureEnd.
    pose proof (GetNonce_create_validate evm1 address (Address_of caller) ret
                  err0 c1 (not_eq_sym Hne)) as Hval.
    rewrite Hv in Hval. simpl in Hval. rewrite Hval.
    split; [exact Hge|].
    intros [?|(e & ? & _)]; discriminate.
Qed.

End OrchestratorFacts.

(** ** The sample instance *)

Section SampleFacts.
#[local] Existing Instance Sample.crypto.
#[local] Existing Instance Sample.precompiles.
#[local] Existing Instance Sample.interpreter.
#[local] Existing Instance Sample.protocol.

Lemma sample_transfer_keeps_nonces (s : StateDB) (a b c : Address)
    (amount : Z) :
  GetNonce (Sample.transfer s a b amount) c = GetNonce s c.
Proof.
  unfold Sample.transfer. by rewrite GetNonce_AddBalance, GetNonce_SubBalance.
Qed.

Lemma sample_precompiles_conserve_gas : precompiles_conserve_gas.
Proof.
  intros evm addr p input gas Hp Hgas. unfold precompile in Hp. simpl in Hp.
  assert (Hid : p = Sample.identity).
  { repeat match type of Hp with
           | context [if ?b then _ else _] => destruct b
           end; apply lookup_singleton_Some in Hp as [_ <-]; reflexivity. }
  subst p. unfold RunPrecompiledContract, Sample.identity.
  destruct (gas <? Z.of_nat (length input)) eqn:Hlt; simpl; lia.
Qed.

Lemma sample_interpreter_conserves_gas : interpreter_conserves_gas.
Proof.
  intros evm c input readOnly Hc. simpl. unfold Sample.run, Sample.charge.
  destruct (Code c) as [|b out]; simpl; [lia|].
  repeat (match goal with
          | |- context [if ?b then _ else _] => destruct b eqn:?
          end; simpl); lia.
Qed.

End SampleFacts.

(** ** The claims on concrete inputs *)

Section Instances.
#[local] Existing Instance Sample.crypto.
#[local] Existing Instance Sample.precompiles.
#[local] Existing Instance Sample.interpreter.
#[local] Existing Instance Sample.protocol.

(** A call with value 7 to account 20, whose code reverts: the output and
    the gas left by the frame come back, the world is the one of entry. *)
Lemma dispatch_error_reverts_witness :
  passesChecks VCall (Sample.machine 0 true) (AccountRef 10) 7 = true ∧
  ∃ evm',
    invoke VCall (Sample.machine 0 true) (AccountRef 10) 20 [] 5000 7
      = Some ([x01], 4900, Some ErrExecutionReverted, evm') ∧
    world (stateDB evm') = world (stateDB (Sample.machine 0 true)).
Proof.
  split; [reflexivity|].
  destruct (dispatch_error_reverts_and_consumes_gas VCall
              (Sample.machine 0 true) (AccountRef 10) 20 [] 5000 7 [x01] 4900
              ErrExecutionReverted
              (entered VCall (Sample.machine 0 true) (AccountRef 10) 20 []
                 5000 7) ltac:(reflexivity) ltac:(reflexivity))
    as (evm' & Hinv & _ & Hw).
  exists evm'. split; [exact Hinv|]. apply Hw. reflexivity.
Defined.

(** At depth 1024, the maximum, a call and a creation are not refused:
    both go through without error. *)
Lemma depth_at_limit_proceeds :
  depth (Sample.machine 1024 true) = params.CallCreateDepth ∧
  snd (fst (Call (Sample.machine 1024 true) (AccountRef 10) 30 [] 5000 7))
    = None ∧
  snd (fst (create (Sample.machine 1024 true) (AccountRef 10)
              {| code := [xf3; x01; x02]; hash := zeroHash |} 5000 5 77
              CREATE))
    = None.
Proof. repeat split; vm_compute; reflexivity. Qed.

Lemma depth_above_limit_fails_witness :
  depth (Sample.machine 1025 true) > params.CallCreateDepth ∧
  Call (Sample.machine 1025 true) (AccountRef 10) 30 [] 5000 7
    = ([], 5000, Some ErrDepth, Sample.machine 1025 true) ∧
  create (Sample.machine 1025 true) (AccountRef 10)
    {| code := [xf3; x01; x02]; hash := zeroHash |} 5000 5 77 CREATE
    = ([], zeroAddress, 5000, Some ErrDepth, Sample.machine 1025 true).
Proof.
  assert (Hd : depth (Sample.machine 1025 true) > params.CallCreateDepth)
    by (vm_compute; reflexivity).
  pose proof (depth_above_limit_fails (Sample.machine 1025 true)
                (AccountRef 10) 30 [] 5000 7
                {| code := [xf3; x01; x02]; hash := zeroHash |} 77 CREATE
                [] 0 Hd) as (HCall & _ & _ & _ & Hcreate & _).
  split; [exact Hd|]. split; [exact HCall|exact Hcreate].
Defined.

(** Account 40 has nonce 1: a creation at that address given 5000 gas
    fails with a collision and returns leftover gas 0, not 5000. *)
Lemma create_collision_returns_no_gas :
  snd (fst (create (Sample.machine 0 true) (AccountRef 10)
              {| code := [xf3; x01; x02]; hash := zeroHash |} 5000 5 40
              CREATE))
    = Some ErrContractAddressCollision ∧
  snd (fst (fst (create (Sample.machine 0 true) (AccountRef 10)
                   {| code := [xf3; x01; x02]; hash := zeroHash |} 5000 5 40
                   CREATE)))
    = 0 ∧
  snd (fst (fst (create (Sample.machine 0 true) (AccountRef 10)
                   {| code := [xf3; x01; x02]; hash := zeroHash |} 5000 5 40
                   CREATE)))
    ≠ 5000.
Proof. repeat split; vm_compute; congruence. Qed.

Lemma create_collision_consumes_all_gas_witness :
  GetNonce (stateDB (Sample.machine 0 true)) 40 ≠ 0 ∧
  ∃ evm',
    create (Sample.machine 0 true) (AccountRef 10)
      {| code := [xf3; x01; x02]; hash := zeroHash |} 5000 5 40 CREATE
      = ([], zeroAddress, 0, Some ErrContractAddressCollision, evm') ∧
    GetNonce (stateDB evm') 10 = 1.
Proof.
  assert (Hnz : GetNonce (stateDB (Sample.machine 0 true)) 40 ≠ 0)
    by (vm_compute; congruence).
  split; [exact Hnz|].
  destruct (create_collision_consumes_all_gas (Sample.machine 0 true)
              (AccountRef 10) {| code := [xf3; x01; x02]; hash := zeroHash |}
              5000 5 40 CREATE ltac:(reflexivity))
    as (evm' & Hc & Hn & _).
  - vm_compute. split; congruence.
  - left. exact Hnz.
  - exists evm'. split; [exact Hc|exact Hn].
Defined.

(** A call with zero value to address 99, which does not exist. *)
Lemma call_to_nonexistent_is_noop_witness :
  Exist (stateDB (Sample.machine 0 true)) 99 = false ∧
  ∃ evm',
    Call (Sample.machine 0 true) (AccountRef 10) 99 [x01] 5000 0
      = ([], 5000, None, evm') ∧
    world (stateDB evm') = world (stateDB (Sample.machine 0 true)) ∧
    Exist (stateDB evm') 99 = false.
Proof.
  split; [reflexivity|].
  apply (call_to_nonexistent_is_noop (Sample.machine 0 true) (AccountRef 10)
           99 [x01] 5000).
  - vm_compute. congruence.
  - reflexivity.
  - reflexivity.
  - reflexivity.
Defined.

(** Deployment code that returns two bytes for 100 gas, run with 450
    gas: the 400 gas to store the code are not there.  Before Homestead
    nothing is rolled back: the new account 77 is there with the 5 that
    were transferred, and the frame keeps its 350 gas.  From Homestead on
    the world is the one before the frame and no gas is left. *)
Lemma create_error_rolls_back_except_legacy_witness :
  (∃ evm',
     create (Sample.machine 0 false) (AccountRef 10)
       {| code := [xf3; x01; x02]; hash := zeroHash |} 450 5 77 CREATE
       = ([x01; x02], 77, 350, Some ErrCodeStoreOutOfGas, evm') ∧
     Exist (stateDB evm') 77 = true ∧ GetBalance (stateDB evm') 77 = 5 ∧
     GetBalance (stateDB evm') 10 = 95) ∧
  (∃ evm',
     create (Sample.machine 0 true) (AccountRef 10)
       {| code := [xf3; x01; x02]; hash := zeroHash |} 450 5 77 CREATE
       = ([x01; x02], 77, 0, Some ErrCodeStoreOutOfGas, evm') ∧
     Exist (stateDB evm') 77 = false ∧ GetBalance (stateDB evm') 10 = 100).
Proof.
  split.
  - destruct (create_error_rolls_back_except_legacy_code_store
                (Sample.machine 0 false) (AccountRef 10)
                {| code := [xf3; x01; x02]; hash := zeroHash |} 450 5 77
                CREATE [x01; x02] None
                (set_Gas 350
                   (create_contract (AccountRef 10)
                      {| code := [xf3; x01; x02]; hash := zeroHash |} 450 5
                      77))
                (create_entered (Sample.machine 0 false) (AccountRef 10)
                   {| code := [xf3; x01; x02]; hash := zeroHash |} 450 5 77
                   CREATE)
                ErrCodeStoreOutOfGas
                ltac:(reflexivity) ltac:(reflexivity) ltac:(reflexivity)
                ltac:(reflexivity))
      as (g' & evm' & Hc & _ & Hlegacy).
    destruct (Hlegacy (conj eq_refl eq_refl)) as [Hst ->].
    exists evm'. split; [exact Hc|]. rewrite Hst.
    repeat split; reflexivity.
  - destruct (create_error_rolls_back_except_legacy_code_store
                (Sample.machine 0 true) (AccountRef 10)
                {| code := [xf3; x01; x02]; hash := zeroHash |} 450 5 77
                CREATE [x01; x02] None
                (set_Gas 350
                   (create_contract (AccountRef 10)
                      {| code := [xf3; x01; x02]; hash := zeroHash |} 450 5
                      77))
                (create_entered (Sample.machine 0 true) (AccountRef 10)
                   {| code := [xf3; x01; x02]; hash := zeroHash |} 450 5 77
                   CREATE)
                ErrCodeStoreOutOfGas
                ltac:(reflexivity) ltac:(reflexivity) ltac:(reflexivity)
                ltac:(reflexivity))
      as (g' & evm' & Hc & Hroll & _).
    destruct (Hroll (or_introl eq_refl)) as (Hst & _ & ->).
    exists evm'. split; [exact Hc|]. rewrite Hst.
    repeat split; reflexivity.
Defined.

(** The same deployment code with 5000 gas: the two bytes are stored as
    the code of account 77 for 400 gas. *)
Lemma create_validations_in_order_witness :
  ∃ evm',
    create (Sample.machine 0 true) (AccountRef 10)
      {| code := [xf3; x01; x02]; hash := zeroHash |} 5000 5 77 CREATE
      = ([x01; x02], 77, 4500, None, evm') ∧
    GetCode (stateDB evm') 77 = [x01; x02].
Proof.
  destruct (create_validations_in_order
              (Sample.machine 0 true) (AccountRef 10)
              {| code := [xf3; x01; x02]; hash := zeroHash |} 5000 5 77
              CREATE [x01; x02]
              (set_Gas 4900
                 (create_contract (AccountRef 10)
                    {| code := [xf3; x01; x02]; hash := zeroHash |} 5000 5
                    77))
              (create_entered (Sample.machine 0 true) (AccountRef 10)
                 {| code := [xf3; x01; x02]; hash := zeroHash |} 5000 5 77
                 CREATE)
              ltac:(reflexivity) ltac:(reflexivity) ltac:(reflexivity)
              ltac:(reflexivity))
    as (g' & err & evm' & Hc & Hcase).
  destruct Hcase as (-> & -> & Hcode).
  exists evm'. split; [exact Hc|exact Hcode].
Defined.

(** At depth 1025 a call given 5000 gas fails with [ErrDepth], which is
    not a revert, and returns leftover gas 5000, not zero. *)
Lemma depth_error_returns_the_gas :
  snd (fst (Call (Sample.machine 1025 true) (AccountRef 10) 30 [] 5000 7))
    = Some ErrDepth ∧
  ErrDepth ≠ ErrExecutionReverted ∧
  snd (fst (fst (Call (Sample.machine 1025 true) (AccountRef 10) 30 [] 5000
                   7)))
    = 5000 ∧
  snd (fst (fst (Call (Sample.machine 1025 true) (AccountRef 10) 30 [] 5000
                   7)))
    ≠ 0.
Proof. repeat split; vm_compute; congruence. Qed.

(** A static call to the identity precompile with one byte of input and
    100 gas passes the checks and succeeds with 99 gas left; with no gas
    it fails with a fault and leftover gas zero. *)
Lemma leftover_gas_bounded_witness :
  (∃ evm',
     invoke VStaticCall (Sample.machine 0 true) (AccountRef 10) 4 [x01] 100 0
       = Some ([x01], 99, None, evm') ∧ 0 <= 99 <= 100) ∧
  (∃ g evm',
     invoke VStaticCall (Sample.machine 0 true) (AccountRef 10) 4 [x01] 0 0
       = Some ([], g, Some (ErrExecutionFault 0), evm') ∧ g = 0).
Proof.
  split.
  - eexists. split; [reflexivity|].
    destruct (leftover_gas_bounded_and_consumed_on_error
                (Sample.machine 0 true) (AccountRef 10) 4 [x01] 100 0
                sample_precompiles_conserve_gas
                sample_interpreter_conserves_gas ltac:(lia))
      as (Hcall & _ & _).
    exact (proj1 (Hcall VStaticCall _ _ _ _ eq_refl)).
  - do 2 eexists. split; [reflexivity|].
    destruct (leftover_gas_bounded_and_consumed_on_error
                (Sample.machine 0 true) (AccountRef 10) 4 [x01] 0 0
                sample_precompiles_conserve_gas
                sample_interpreter_conserves_gas ltac:(lia))
      as (Hcall & _ & _).
    destruct (Hcall VStaticCall _ _ _ _ eq_refl) as (_ & _ & Hz).
    apply (Hz eq_refl (ErrExecutionFault 0) eq_refl). discriminate.
Defined.

(** A creation whose deployment code reverts: the world is rolled back,
    account 77 is not there, and account 10 keeps nonce 1 and the access
    list keeps address 77. *)
Lemma create_nonce_increment_witness :
  ∃ r a g evm',
    create (Sample.machine 0 true) (AccountRef 10)
      {| code := [xfd; x01]; hash := zeroHash |} 5000 5 77 CREATE
      = (r, a, g, Some ErrExecutionReverted, evm') ∧
    GetNonce (stateDB (Sample.machine 0 true)) 10 = 0 ∧
    GetNonce (stateDB evm') 10 = 1 ∧
    AddressInAccessList (stateDB evm') 77 = true.
Proof.
  destruct (create_nonce_increment_is_never_undone
              (Sample.machine 0 true) (AccountRef 10)
              {| code := [xfd; x01]; hash := zeroHash |} 5000 5 77 CREATE
              [x01] (Some ErrExecutionReverted)
              (set_Gas 4900
                 (create_contract (AccountRef 10)
                    {| code := [xfd; x01]; hash := zeroHash |} 5000 5 77))
              (create_entered (Sample.machine 0 true) (AccountRef 10)
                 {| code := [xfd; x01]; hash := zeroHash |} 5000 5 77 CREATE)
              ltac:(reflexivity)
              ltac:(vm_compute; split; congruence)
              ltac:(intros s; apply sample_transfer_keeps_nonces)
              ltac:(reflexivity)
              ltac:(vm_compute; congruence)
              ltac:(reflexivity))
    as (_ & r & a & g & err & evm' & Hc & _ & Hroll).
  assert (err = Some ErrExecutionReverted) as ->
    by (vm_compute in Hc; congruence).
  destruct Hroll as (_ & Hn & Hacc).
  { right. exists ErrExecutionReverted. split; [reflexivity|].
    left. reflexivity. }
  exists r, a, g, evm'. split; [exact Hc|]. split; [reflexivity|].
  split; [exact Hn|]. apply Hacc. reflexivity.
Defined.

(** A machine whose transfer guard declines everything: with value zero
    [CallCode] fails with [ErrInsufficientBalance], while [Call] does not
    consult the guard and succeeds. *)
Lemma transfer_guard_witness :
  CanTransfer (Context Sample.strictMachine) (stateDB Sample.strictMachine)
    10 0 = false ∧
  CallCode Sample.strictMachine (AccountRef 10) 99 [] 5000 0
    = ([], 5000, Some ErrInsufficientBalance, Sample.strictMachine) ∧
  fst (Call Sample.strictMachine (AccountRef 10) 99 [] 5000 0)
    = ([], 5000, None).
Proof.
  split; [reflexivity|].
  destruct (transfer_guard_CallCode_always_Call_nonzero Sample.strictMachine
              (AccountRef 10) 99 [] 5000 0
              ltac:(vm_compute; congruence) ltac:(reflexivity))
    as (HCallCode & _ & HCall).
  split; [exact HCallCode|]. rewrite (proj1 (HCall eq_refl)). reflexivity.
Defined.

(** A static call to the identity precompile, whose account does not
    exist.  Without gas the precompile fails: the world is the one of
    entry and the account is still absent.  With gas it succeeds and the
    touched account is there. *)
Lemma StaticCall_touch_witness :
  (∃ g' evm',
     StaticCall (Sample.machine 0 true) (AccountRef 10) 4 [x01] 0
       = ([], g', Some (ErrExecutionFault 0), evm') ∧
     world (stateDB evm') = world (stateDB (Sample.machine 0 true)) ∧
     Exist (stateDB evm') 4 = false) ∧
  (∃ g' evm',
     StaticCall (Sample.machine 0 true) (AccountRef 10) 4 [x01] 100
       = ([x01], g', None, evm') ∧
     Exist (stateDB evm') 4 = true ∧ isTouched (stateDB evm') 4 = true).
Proof.
  split.
  - destruct (StaticCall_touch_follows_snapshot (Sample.machine 0 true)
                (AccountRef 10) 4 [x01] 0 [] 0 (Some (ErrExecutionFault 0))
                (entered VStaticCall (Sample.machine 0 true) (AccountRef 10)
                   4 [x01] 0 0)
                ltac:(vm_compute; congruence) ltac:(reflexivity))
      as (_ & g' & evm' & Hs & Hst & Hw).
    exists g', evm'. split; [exact Hs|].
    specialize (Hw ltac:(reflexivity)). split; [exact Hw|].
    unfold Exist, getStateObject. rewrite Hw. reflexivity.
  - destruct (StaticCall_touch_follows_snapshot (Sample.machine 0 true)
                (AccountRef 10) 4 [x01] 100 [x01] 99 None
                (entered VStaticCall (Sample.machine 0 true) (AccountRef 10)
                   4 [x01] 100 0)
                ltac:(vm_compute; congruence) ltac:(reflexivity))
      as (_ & g' & evm' & Hs & Hst & Hp).
    exists g', evm'. split; [exact Hs|].
    destruct (Hp eq_refl) as [Hpre Hex]. split; [exact Hex|].
    rewrite Hpre. reflexivity.
Defined.

End Instances.

(** ** Further properties of the orchestrator *)

Section FurtherFacts.
Context `{Crypto} `{Precompiles} `{EVMInterpreter} `{ProtocolParams}.

(** X1: a call variant that fails one of its checks returns no output, the
    gas it was given and the machine untouched; the depth check comes
    first, so that above the depth limit the error is [ErrDepth] even when
    the transfer guard declines as well. *)
Theorem failed_check_returns_gas_and_machine (v : CallVariant) (evm : EVM)
    (caller : ContractRef) (addr : Address) (input : list byte)
    (gas value : Z) :
  passesChecks v evm caller value = false →
  invoke v evm caller addr input gas value
  = Some ([], gas,
          Some (if depth evm >? params.CallCreateDepth then ErrDepth
                else ErrInsufficientBalance), evm).
Proof.
  unfold passesChecks. intros Hp.
  destruct (depth evm >? params.CallCreateDepth) eqn:Hd; simpl in Hp.
  - destruct v; unfold invoke, Call, CallCode, DelegateCall, StaticCall;
      by rewrite Hd.
  - destruct v; try discriminate; unfold invoke, Call, CallCode; rewrite Hd.
    + apply orb_false_elim in Hp as [Hv Hg]. by rewrite Hv, Hg.
    + by rewrite Hp.
Qed.

(** X2: a creation that fails one of its checks returns no output, the
    zero address, the gas it was given and the machine untouched, the
    nonce of the caller included; the checks come in the order depth,
    balance, nonce overflow. *)
Theorem create_failed_check_returns_gas_and_machine (evm : EVM)
    (caller : ContractRef) (ch : codeAndHash) (gas value : Z)
    (address : Address) (typ : OpCode) :
  create_passesChecks evm caller value = false →
  create evm caller ch gas value address typ
  = ([], zeroAddress, gas,
     Some (if depth evm >? params.CallCreateDepth then ErrDepth
           else if CanTransfer (Context evm) (stateDB evm) (Address_of caller)
                     value
           then ErrNonceUintOverflow else ErrInsufficientBalance), evm).
Proof.
  unfold create_passesChecks, create. intros Hp.
  destruct (depth evm >? params.CallCreateDepth); [reflexivity|].
  destruct (CanTransfer _ _ _ value); [|reflexivity].
  destruct (create_nonceOverflow evm caller); [reflexivity|discriminate].
Qed.

(** X3: the overflow check of create fires exactly when the nonce of the
    caller is the largest uint64: with nonce 2^64 - 1 a creation that
    passes the depth and balance checks fails with
    [ErrNonceUintOverflow], the gas returned and nothing changed; with
    any smaller nonce all the checks pass. *)
Theorem create_nonce_overflow_exactly_at_max (evm : EVM)
    (caller : ContractRef) (ch : codeAndHash) (gas value : Z)
    (address : Address) (typ : OpCode) :
  depth evm <= params.CallCreateDepth →
  CanTransfer (Context evm) (stateDB evm) (Address_of caller) value = true →
  is_uint64 (GetNonce (stateDB evm) (Address_of caller)) →
  (GetNonce (stateDB evm) (Address_of caller) = 2 ^ 64 - 1 →
   create evm caller ch gas value address typ
   = ([], zeroAddress, gas, Some ErrNonceUintOverflow, evm)) ∧
  (GetNonce (stateDB evm) (Address_of caller) < 2 ^ 64 - 1 →
   create_passesChecks evm caller value = true).
Proof.
  intros Hd Hg Hn. pose proof (gtb_limit_false _ Hd) as Hdepth.
  unfold create, create_passesChecks, create_nonceOverflow, wrap64.
  rewrite Hdepth, Hg. simpl. unfold is_uint64 in Hn. split.
  - intros Hmax. rewrite Hmax.
    replace (2 ^ 64 - 1 + 1) with (2 ^ 64) by lia.
    by rewrite Z_mod_same_full.
  - intros Hlt. rewrite Z.mod_small by lia.
    apply negb_true_iff, Z.ltb_ge. lia.
Qed.

Lemma create_address_component (evm : EVM) (caller : ContractRef)
    (ch : codeAndHash) (gas value : Z) (address : Address) (typ : OpCode) :
  create_passesChecks evm caller value = true →
  snd (fst (fst (fst (create evm caller ch gas value address typ))))
  = if create_collision (create_bump evm caller address) address
    then zeroAddress else address.
Proof.
  intros Hp. rewrite (create_checked _ _ _ _ _ _ _ Hp).
  destruct (create_collision _ address); [reflexivity|].
  rewrite create_frame_eq.
  destruct (create_run evm caller ch gas value address typ)
    as [[[ret err0] c1] evm1].
  destruct (create_validate evm1 address ret err0 c1) as [[err1 c2] evm2].
  by destruct (create_revertOnError _ err1 c2 evm2).
Qed.

(** X4: the address create returns is the designated address on every
    path past the collision check, whether the run and the validations
    succeed or fail, and the zero address when the collision check
    fails. *)
Theorem create_returns_designated_address (evm : EVM)
    (caller : ContractRef) (ch : codeAndHash) (gas value : Z)
    (address : Address) (typ : OpCode) :
  create_passesChecks evm caller value = true →
  (create_collision (create_bump evm caller address) address = false →
   snd (fst (fst (fst (create evm caller ch gas value address typ))))
   = address) ∧
  (create_collision (create_bump evm caller address) address = true →
   snd (fst (fst (fst (create evm caller ch gas value address typ))))
   = zeroAddress).
Proof.
  intros Hp. rewrite (create_address_component _ _ _ _ _ _ _ Hp).
  split; by intros ->.
Qed.


(** X6: [codeAndHash.Hash] computes the hash of the code at most once: a
    second call returns the same hash and leaves the record as the first
    call left it; starting from the zero hash the result is the hash of
    the code. *)
Theorem codeAndHash_Hash_is_cached (c : codeAndHash) :
  codeAndHash_Hash (snd (codeAndHash_Hash c)) = codeAndHash_Hash c ∧
  hash (snd (codeAndHash_Hash c)) = fst (codeAndHash_Hash c) ∧
  code (snd (codeAndHash_Hash c)) = code c ∧
  (hash c = zeroHash → fst (codeAndHash_Hash c) = Keccak256Hash (code c)).
Proof.
  unfold codeAndHash_Hash.
  destruct (hash c =? zeroHash) eqn:Hz; simpl.
  - destruct (Keccak256Hash (code c) =? zeroHash) eqn:Hk; simpl;
      repeat split; reflexivity.
  - rewrite Hz. repeat split; try reflexivity.
    intros Hc. rewrite Hc in Hz. discriminate.
Qed.

(** *** Calls that run no code *)

Lemma stateDB_entered_Call (evm : EVM) (caller : ContractRef)
    (addr : Address) (input : list byte) (gas value : Z) :
  stateDB (entered VCall evm caller addr input gas value)
  = Transfer (Context evm)
      (if Exist (stateDB evm) addr then snd (Snapshot (stateDB evm))
       else CreateAccount (snd (Snapshot (stateDB evm))) addr)
      (Address_of caller) addr value.
Proof.
  unfold entered, Call_setup. rewrite takeSnapshot_eq. cbn [snd].
  set (e0 := set_stateDB (snd (Snapshot (stateDB evm))) evm).
  assert (Hx : Exist (stateDB e0) addr = Exist (stateDB evm) addr)
    by reflexivity.
  rewrite Hx. destruct (Exist (stateDB evm) addr); simpl;
    repeat match goal with
           | |- context [if ?b then _ else _] => destruct b
           end; reflexivity.
Qed.

Lemma GetCode_CreateAccount (s : StateDB) (addr : Address) :
  GetCode (CreateAccount s addr) addr = [].
Proof.
  unfold GetCode, CreateAccount, getStateObject. simpl.
  by rewrite lookup_insert_eq.
Qed.

Lemma Exist_CreateAccount (s : StateDB) (addr : Address) :
  Exist (CreateAccount s addr) addr = true.
Proof.
  unfold Exist, CreateAccount, getStateObject. simpl.
  apply bool_decide_eq_true. rewrite lookup_insert_eq. eauto.
Qed.

Lemma GetNonce_CreateAccount (s : StateDB) (addr : Address) :
  GetNonce (CreateAccount s addr) addr = 0.
Proof.
  unfold GetNonce, CreateAccount, getStateObject. simpl.
  by rewrite lookup_insert_eq.
Qed.

(** X7: a [Call] that passes its checks, to an address that is no
    precompile and holds no code, and that is not the no-op of a missing
    account, runs nothing: it succeeds with empty output and all the gas,
    and the store is the transfer applied to the checkpointed store, with
    the account created first when it was missing; nothing is rolled
    back.  A missing account is there afterwards if the transfer keeps
    accounts. *)
Theorem call_without_code_only_transfers (evm : EVM) (caller : ContractRef)
    (addr : Address) (input : list byte) (gas value : Z) :
  passesChecks VCall evm caller value = true →
  precompile evm addr = None →
  Exist (stateDB evm) addr = true ∨
    params.IsEIP158 (chainRules evm) = false ∨ value ≠ 0 →
  GetCode (stateDB evm) addr = [] →
  (∀ s, GetCode (Transfer (Context evm) s (Address_of caller) addr value) addr
        = GetCode s addr) →
  ∃ evm',
    Call evm caller addr input gas value = ([], gas, None, evm') ∧
    stateDB evm'
    = Transfer (Context evm)
        (if Exist (stateDB evm) addr then snd (Snapshot (stateDB evm))
         else CreateAccount (snd (Snapshot (stateDB evm))) addr)
        (Address_of caller) addr value ∧
    ((∀ s, Exist s addr = true →
           Exist (Transfer (Context evm) s (Address_of caller) addr value)
             addr = true) →
     Exist (stateDB evm') addr = true).
Proof.
  intros Hp Hpre Hlive Hcode Ht.
  rewrite (Call_checked _ _ _ _ _ _ Hp), Call_frame_eq.
  assert (Hno : Call_noop (snd (takeSnapshot evm)) addr value = false).
  { unfold Call_noop.
    change (Exist (stateDB (snd (takeSnapshot evm))) addr)
      with (Exist (stateDB evm) addr).
    change (precompile (snd (takeSnapshot evm)) addr)
      with (precompile evm addr).
    change (chainRules (snd (takeSnapshot evm))) with (chainRules evm).
    rewrite Hpre. simpl.
    destruct Hlive as [->|[->|Hv]]; [reflexivity| |].
    - by rewrite andb_false_r.
    - apply Z.eqb_neq in Hv. rewrite Hv. by rewrite !andb_false_r. }
  rewrite Hno, Hpre. unfold Call_dispatch.
  assert (Hempty : GetCode
            (stateDB (entered VCall evm caller addr input gas value)) addr
          = []).
  { rewrite stateDB_entered_Call, Ht.
    destruct (Exist (stateDB evm) addr); [exact Hcode|].
    apply GetCode_CreateAccount. }
  rewrite Hempty. simpl.
  destruct (stateDB_deferredCapture (Debug (config evm)) (depth evm =? 0) gas
              [] gas None (entered VCall evm caller addr input gas value))
    as (evm' & Heq & Hst).
  exists evm'. split; [exact Heq|]. rewrite Hst, stateDB_entered_Call.
  split; [reflexivity|].
  intros Hkeep. apply Hkeep.
  destruct (Exist (stateDB evm) addr) eqn:Hex; [exact Hex|].
  apply Exist_CreateAccount.
Qed.

(** X8: [CallCode] and [DelegateCall] to a precompile mutate nothing of
    their own: the outcome is what the precompile returns, with the gas
    zeroed on an error other than a revert, and the world of the store is
    the one of entry.  On success the checkpoint of the frame is left in
    the store and never discarded; on an error it is removed by the
    rollback.  No frame is built, so that [DelegateCall] does not need its
    caller to be one. *)
Theorem precompile_by_CallCode_or_DelegateCall (v : CallVariant) (evm : EVM)
    (caller : ContractRef) (addr : Address) (input : list byte)
    (gas value : Z) (p : PrecompiledContract) (ret : list byte) (g : Z)
    (err : option Error) :
  v = VCallCode ∨ v = VDelegateCall →
  passesChecks v evm caller value = true →
  precompile evm addr = Some p →
  RunPrecompiledContract p input gas = (ret, g, err) →
  ∃ evm',
    invoke v evm caller addr input gas value
    = Some (ret,
            match err with
            | Some e => if decide (e = ErrExecutionReverted) then g else 0
            | None => g
            end, err, evm') ∧
    world (stateDB evm') = world (stateDB evm) ∧
    validRevisions (stateDB evm')
    = match err with
      | Some _ => validRevisions (stateDB evm)
      | None => (nextRevisionId (stateDB evm), world (stateDB evm))
                  :: validRevisions (stateDB evm)
      end.
Proof.
  intros Hv Hp Hpre Hrun.
  assert (Hfin : ∀ pre,
    stateDB pre = snd (Snapshot (stateDB evm)) →
    ∃ evm',
      deferredCapture (Debug (config evm)) false gas
        (revertOnError (fst (takeSnapshot evm)) (ret, g, err, pre))
      = (ret,
         match err with
         | Some e => if decide (e = ErrExecutionReverted) then g else 0
         | None => g
         end, err, evm') ∧
      world (stateDB evm') = world (stateDB evm) ∧
      validRevisions (stateDB evm')
      = match err with
        | Some _ => validRevisions (stateDB evm)
        | None => (nextRevisionId (stateDB evm), world (stateDB evm))
                    :: validRevisions (stateDB evm)
        end).
  { intros pre Hst. destruct err as [e|].
    - rewrite revertOnError_error.
      destruct (stateDB_deferredCapture (Debug (config evm)) false gas ret
                  (if decide (e = ErrExecutionReverted) then g else 0)
                  (Some e)
                  (set_stateDB
                     (RevertToSnapshot (stateDB pre) (fst (takeSnapshot evm)))
                     pre)) as (evm' & Heq & Hst').
      exists evm'. split; [exact Heq|]. rewrite Hst', Hst. simpl.
      unfold RevertToSnapshot. simpl. rewrite Z.eqb_refl. by simpl.
    - destruct (stateDB_deferredCapture (Debug (config evm)) false gas ret g
                  None pre) as (evm' & Heq & Hst').
      exists evm'. split; [exact Heq|]. rewrite Hst', Hst. by simpl. }
  assert (Hent : ∀ typ val,
    stateDB (enterHook typ (snd (takeSnapshot evm)) caller addr input gas val)
    = snd (Snapshot (stateDB evm))).
  { intros typ val. unfold enterHook. rewrite takeSnapshot_eq. simpl.
    by destruct (Debug (config evm)). }
  destruct Hv as [-> | ->]; unfold invoke.
  - rewrite (CallCode_checked _ _ _ _ _ _ Hp). unfold CallCode_dispatch.
    rewrite precompile_entered, Hpre, Hrun.
    destruct (Hfin (entered VCallCode evm caller addr input gas value)
                (Hent CALLCODE (Some value))) as (evm' & Heq & Hw & Hr).
    exists evm'. split; [by rewrite Heq|done].
  - rewrite (DelegateCall_checked _ _ _ _ _ _ Hp).
    unfold DelegateCall_dispatch.
    rewrite precompile_entered, Hpre, Hrun.
    destruct (Hfin (entered VDelegateCall evm caller addr input gas value)
                (Hent DELEGATECALL None)) as (evm' & Heq & Hw & Hr).
    exists evm'. split; [|done]. rewrite <- Heq. reflexivity.
Qed.

(** *** The tracer and the fields the orchestrator leaves alone *)

(** A variant that passes its checks and reaches its dispatch returns the
    outcome of the dispatch, put through the error handling and the
    deferred tracer hook. *)
Lemma invoke_dispatched (v : CallVariant) (evm : EVM) (caller : ContractRef)
    (addr : Address) (input : list byte) (gas value : Z) (o : CallOutcome) :
  passesChecks v evm caller value = true →
  dispatched v evm caller addr input gas value = Some o →
  invoke v evm caller addr input gas value
  = Some (deferredCapture (Debug (config evm))
            (match v with VCall => depth evm =? 0 | _ => false end) gas
            (revertOnError (fst (takeSnapshot evm)) o)).
Proof.
  intros Hp Hd. destruct v; unfold invoke, dispatched in *.
  - rewrite (Call_checked _ _ _ _ _ _ Hp), Call_frame_eq.
    destruct (Call_noop _ addr value); [discriminate|].
    apply (inj Some) in Hd. by rewrite Hd.
  - rewrite (CallCode_checked _ _ _ _ _ _ Hp).
    apply (inj Some) in Hd. by rewrite Hd.
  - by rewrite (DelegateCall_checked _ _ _ _ _ _ Hp), Hd.
  - rewrite (StaticCall_checked _ _ _ _ _ value Hp).
    apply (inj Some) in Hd. by rewrite Hd.
Qed.

Lemma config_entered (v : CallVariant) (evm : EVM) (caller : ContractRef)
    (addr : Address) (input : list byte) (gas value : Z) :
  Debug (config (entered v evm caller addr input gas value))
    = Debug (config evm) ∧
  Tracer (config (entered v evm caller addr input gas value))
  = if Debug (config evm) then
      Tracer (config evm) ++
      [match v with
       | VCall =>
           if depth evm =? 0
           then CaptureStart (Address_of caller) addr false input gas value
           else CaptureEnter CALL (Address_of caller) addr input gas
                  (Some value)
       | VCallCode =>
           CaptureEnter CALLCODE (Address_of caller) addr input gas
             (Some value)
       | VDelegateCall =>
           CaptureEnter DELEGATECALL (Address_of caller) addr input gas None
       | VStaticCall =>
           CaptureEnter STATICCALL (Address_of caller) addr input gas None
       end]
    else Tracer (config evm).
Proof.
  assert (Hif : ∀ (b : bool) (e1 e2 : EVM) (t : list TraceEvent),
    Debug (config e1) = Debug (config evm) →
    Debug (config e2) = Debug (config evm) →
    Tracer (config e1) = t → Tracer (config e2) = Tracer (config evm) →
    b = Debug (config evm) →
    Debug (config (if b then e1 else e2)) = Debug (config evm) ∧
    Tracer (config (if b then e1 else e2))
    = if Debug (config evm) then t else Tracer (config evm)).
  { intros b e1 e2 t H1' H2' H3' H4' ->.
    by destruct (Debug (config evm)). }
  destruct v; unfold entered, Call_setup, StaticCall_setup, enterHook;
    rewrite takeSnapshot_eq; cbn [snd].
  - destruct (negb (Exist _ addr)); cbn [config set_stateDB depth];
      destruct (depth evm =? 0); by apply Hif.
  - by apply Hif.
  - by apply Hif.
  - by apply Hif.
Qed.

(** X9: in debug mode every call variant that reaches its dispatch
    brackets it with two tracer events: the opening event goes to the
    tracer before the dispatch, and the closing event, added to whatever
    the dispatched execution reported, carries the output, the error and
    as gas used the gas given minus the leftover gas returned, so that a
    failure other than a revert is reported as having used all the gas.
    Only [Call] at depth 0 uses the start and end events.  Outside debug
    mode the variant reports nothing. *)
Theorem tracer_events_bracket_the_dispatch (v : CallVariant) (evm : EVM)
    (caller : ContractRef) (addr : Address) (input : list byte)
    (gas value : Z) (ret : list byte) (g : Z) (err : option Error)
    (evm1 : EVM) :
  passesChecks v evm caller value = true →
  dispatched v evm caller addr input gas value = Some (ret, g, err, evm1) →
  ∃ g' evm',
    invoke v evm caller addr input gas value = Some (ret, g', err, evm') ∧
    (∀ e, err = Some e → e ≠ ErrExecutionReverted → g' = 0) ∧
    (Debug (config evm) = false →
     Tracer (config (entered v evm caller addr input gas value))
       = Tracer (config evm) ∧
     Tracer (config evm') = Tracer (config evm1)) ∧
    (Debug (config evm) = true →
     Tracer (config (entered v evm caller addr input gas value))
     = Tracer (config evm) ++
       [match v with
        | VCall =>
            if depth evm =? 0
            then CaptureStart (Address_of caller) addr false input gas value
            else CaptureEnter CALL (Address_of caller) addr input gas
                   (Some value)
        | VCallCode =>
            CaptureEnter CALLCODE (Address_of caller) addr input gas
              (Some value)
        | VDelegateCall =>
            CaptureEnter DELEGATECALL (Address_of caller) addr input gas None
        | VStaticCall =>
            CaptureEnter STATICCALL (Address_of caller) addr input gas None
        end] ∧
     Tracer (config evm')
     = Tracer (config evm1) ++
       [if match v with VCall => depth evm =? 0 | _ => false end
        then CaptureEnd ret (wrap64 (gas - g')) err
        else CaptureExit ret (wrap64 (gas - g')) err]).
Proof.
  intros Hp Hd. rewrite (invoke_dispatched _ _ _ _ _ _ _ _ Hp Hd).
  destruct (config_entered v evm caller addr input gas value) as [_ Htr].
  rewrite Htr. clear Htr.
  set (top := match v with VCall => depth evm =? 0 | _ => false end).
  destruct err as [e|]; simpl; destruct (Debug (config evm));
    do 2 eexists; (split; [reflexivity|]); simpl;
    (split; [intros e' [= <-] Hne; by destruct (decide _) || discriminate|]);
    split; intros Hdbg; try discriminate; split; try reflexivity;
    by destruct top.
Qed.

Lemma fields_capture_set_stateDB (ev : TraceEvent) (s : StateDB) (evm : EVM) :
  depth (capture ev evm) = depth evm ∧
  chainRules (capture ev evm) = chainRules evm ∧
  Context (capture ev evm) = Context evm ∧
  abort (capture ev evm) = abort evm ∧
  depth (set_stateDB s evm) = depth evm ∧
  chainRules (set_stateDB s evm) = chainRules evm ∧
  Context (set_stateDB s evm) = Context evm ∧
  abort (set_stateDB s evm) = abort evm.
Proof. repeat split. Qed.

(** X10: the call variants leave the depth counter, the fork rules, the
    block context and the abort flag alone: the machine handed to the
    dispatched execution carries those of entry, and the machine returned
    carries those the dispatched execution left.  The depth is counted by
    the interpreter, not by the orchestrator. *)
Theorem call_variants_keep_depth_rules_and_context (v : CallVariant)
    (evm : EVM) (caller : ContractRef) (addr : Address) (input : list byte)
    (gas value : Z) (ret : list byte) (g : Z) (err : option Error)
    (evm1 : EVM) :
  passesChecks v evm caller value = true →
  dispatched v evm caller addr input gas value = Some (ret, g, err, evm1) →
  (depth (entered v evm caller addr input gas value) = depth evm ∧
   chainRules (entered v evm caller addr input gas value) = chainRules evm ∧
   Context (entered v evm caller addr input gas value) = Context evm ∧
   abort (entered v evm caller addr input gas value) = abort evm) ∧
  ∃ g' evm',
    invoke v evm caller addr input gas value = Some (ret, g', err, evm') ∧
    depth evm' = depth evm1 ∧ chainRules evm' = chainRules evm1 ∧
    Context evm' = Context evm1 ∧ abort evm' = abort evm1.
Proof.
  intros Hp Hd. split.
  - destruct v; unfold entered, Call_setup, StaticCall_setup, enterHook;
      rewrite takeSnapshot_eq; cbn [snd];
      repeat match goal with
             | |- context [if ?b then _ else _] => destruct b
             end; repeat split.
  - rewrite (invoke_dispatched _ _ _ _ _ _ _ _ Hp Hd).
    destruct err as [e|]; simpl; destruct (Debug (config evm));
      do 2 eexists; (split; [reflexivity|]); repeat split.
Qed.


(** *** Creations *)

(** A creation past the collision check whose validation gives no error. *)
Lemma create_success (evm : EVM) (caller : ContractRef) (ch : codeAndHash)
    (gas value : Z) (address : Address) (typ : OpCode) (ret : list byte)
    (err0 : option Error) (c1 : Contract) (evm1 : EVM) (c2 : Contract)
    (evm2 : EVM) :
  create_passesChecks evm caller value = true →
  create_collision (create_bump evm caller address) address = false →
  create_run evm caller ch gas value address typ = (ret, err0, c1, evm1) →
  create_validate evm1 address ret err0 c1 = (None, c2, evm2) →
  ∃ evm',
    create evm caller ch gas value address typ
      = (ret, address, Gas c2, None, evm') ∧
    stateDB evm' = stateDB evm2.
Proof.
  intros Hp Hcol Hrun Hval.
  rewrite (create_checked _ _ _ _ _ _ _ Hp), Hcol, create_frame_eq, Hrun,
    Hval.
  simpl. eexists. split; [reflexivity|]. apply stateDB_create_captureEnd.
Qed.

(** X12: round trip of a deployment: when create returns no error, the
    code read back from the new address is the output of the deployment
    code, the code hash recorded for it is the hash of those bytes, and
    the leftover gas is the gas the run left minus the charge for storing
    the code, which the frame could afford. *)
Theorem created_code_reads_back (evm : EVM) (caller : ContractRef)
    (ch : codeAndHash) (gas value : Z) (address : Address) (typ : OpCode)
    (ret : list byte) (err0 : option Error) (c1 : Contract) (evm1 : EVM) :
  create_passesChecks evm caller value = true →
  create_collision (create_bump evm caller address) address = false →
  create_run evm caller ch gas value address typ = (ret, err0, c1, evm1) →
  snd (fst (create evm caller ch gas value address typ)) = None →
  ∃ evm',
    create evm caller ch gas value address typ
      = (ret, address, Gas c1 - createDataGas ret, None, evm') ∧
    createDataGas ret <= Gas c1 ∧
    GetCode (stateDB evm') address = ret ∧
    GetCodeHash (stateDB evm') address
      = Keccak256Hash (GetCode (stateDB evm') address).
Proof.
  intros Hp Hcol Hrun Hok.
  assert (Hv : create_validate evm1 address ret err0 c1
               = (None, set_Gas (Gas c1 - createDataGas ret) c1,
                  set_stateDB (SetCode (stateDB evm1) address ret) evm1) ∧
               createDataGas ret <= Gas c1).
  { rewrite (create_checked _ _ _ _ _ _ _ Hp), Hcol, create_frame_eq, Hrun
      in Hok.
    destruct err0 as [e0|].
    - exfalso. change (create_validate evm1 address ret (Some e0) c1)
        with (Some e0, c1, evm1) in Hok.
      cbv beta iota in Hok.
      by destruct (create_revertOnError
                     (fst (takeSnapshot (create_bump evm caller address)))
                     (Some e0) c1 evm1).
    - rewrite create_validate_success in Hok |- *.
      destruct (_ && _);
        [exfalso; cbv beta iota in Hok;
         by destruct (create_revertOnError
                        (fst (takeSnapshot (create_bump evm caller address)))
                        _ c1 evm1)|].
      destruct (_ && _);
        [exfalso; cbv beta iota in Hok;
         by destruct (create_revertOnError
                        (fst (takeSnapshot (create_bump evm caller address)))
                        _ c1 evm1)|].
      destruct (Gas c1 <? createDataGas ret) eqn:Hlt;
        [exfalso; cbv beta iota in Hok;
         by destruct (create_revertOnError
                        (fst (takeSnapshot (create_bump evm caller address)))
                        _ c1 evm1)|].
      split; [reflexivity|]. by apply Z.ltb_ge. }
  destruct Hv as [Hv Hle].
  destruct (create_success _ _ _ _ _ _ _ _ _ _ _ _ _ Hp Hcol Hrun Hv)
    as (evm' & Hc & Hst).
  exists evm'. split; [exact Hc|]. split; [exact Hle|].
  rewrite Hst. simpl. rewrite GetCode_SetCode.
  split; [reflexivity|]. apply GetCodeHash_SetCode.
Qed.

(** X13: deployment code that returns no output deploys the empty code:
    the charge for storing it is zero, so the creation succeeds with all
    the gas the run left, and the new address holds no code, with the hash
    of the empty code. *)
Theorem create_with_empty_output (evm : EVM) (caller : ContractRef)
    (ch : codeAndHash) (gas value : Z) (address : Address) (typ : OpCode)
    (c1 : Contract) (evm1 : EVM) :
  create_passesChecks evm caller value = true →
  create_collision (create_bump evm caller address) address = false →
  create_run evm caller ch gas value address typ = ([], None, c1, evm1) →
  0 <= MaxCodeSize → 0 <= Gas c1 →
  ∃ evm',
    create evm caller ch gas value address typ
      = ([], address, Gas c1, None, evm') ∧
    GetCode (stateDB evm') address = [] ∧
    GetCodeHash (stateDB evm') address = emptyCodeHash.
Proof.
  intros Hp Hcol Hrun Hmax Hgas.
  assert (Hv : create_validate evm1 address [] None c1
               = (None, set_Gas (Gas c1 - 0) c1,
                  set_stateDB (SetCode (stateDB evm1) address []) evm1)).
  { rewrite create_validate_success.
    change (createDataGas []) with 0.
    change (Z.of_nat (length (@nil byte))) with 0.
    change (startsWithEF []) with false.
    assert ((0 >? MaxCodeSize) = false) as ->
      by (rewrite Z.gtb_ltb; apply Z.ltb_ge; lia).
    rewrite !andb_false_r.
    assert ((Gas c1 <? 0) = false) as -> by (apply Z.ltb_ge; lia).
    reflexivity. }
  destruct (create_success _ _ _ _ _ _ _ _ _ _ _ _ _ Hp Hcol Hrun Hv)
    as (evm' & Hc & Hst).
  exists evm'. simpl in Hc. rewrite Z.sub_0_r in Hc.
  split; [exact Hc|]. rewrite Hst. simpl.
  split; [apply GetCode_SetCode|apply GetCodeHash_SetCode].
Qed.

(** X14: an error of the deployment code is never replaced: when the run
    fails, the size check, the prefix check and the storage charge are all
    skipped, create returns that error with the output of the run, and the
    leftover gas is what the run left if the error is a revert or if
    nothing is rolled back, and zero otherwise. *)
Theorem create_keeps_the_error_of_the_run (evm : EVM) (caller : ContractRef)
    (ch : codeAndHash) (gas value : Z) (address : Address) (typ : OpCode)
    (ret : list byte) (e0 : Error) (c1 : Contract) (evm1 : EVM) :
  create_passesChecks evm caller value = true →
  create_collision (create_bump evm caller address) address = false →
  create_run evm caller ch gas value address typ = (ret, Some e0, c1, evm1) →
  ∃ evm',
    create evm caller ch gas value address typ
    = (ret, address,
       (if decide (e0 = ErrExecutionReverted) then Gas c1
        else if params.IsHomestead (chainRules evm1) ||
                negb (bool_decide (e0 = ErrCodeStoreOutOfGas))
        then 0 else Gas c1),
       Some e0, evm').
Proof.
  intros Hp Hcol Hrun.
  rewrite (create_checked _ _ _ _ _ _ _ Hp), Hcol, create_frame_eq, Hrun.
  assert (Hv : create_validate evm1 address ret (Some e0) c1
               = (Some e0, c1, evm1)) by reflexivity.
  rewrite Hv, create_revertOnError_error.
  destruct (decide (e0 = ErrExecutionReverted)) as [->|Hne]; simpl.
  - destruct (params.IsHomestead (chainRules evm1)); simpl;
      eexists; reflexivity.
  - destruct (_ || _); eexists; reflexivity.
Qed.

(** X15: the account the deployment code runs in is a fresh one: as long
    as the transfer leaves nonces alone, its nonce is 1 under EIP-158 and
    0 before, whatever account was at the address. *)
Theorem new_account_starts_with_nonce (evm : EVM) (caller : ContractRef)
    (ch : codeAndHash) (gas value : Z) (address : Address) (typ : OpCode) :
  (∀ s, GetNonce (Transfer (Context evm) s (Address_of caller) address value)
          address = GetNonce s address) →
  GetNonce (stateDB (create_entered evm caller ch gas value address typ))
    address
  = if params.IsEIP158 (chainRules evm) then 1 else 0.
Proof.
  intros Ht. unfold create_entered, create_setup.
  rewrite takeSnapshot_eq. cbn [snd].
  set (e0 := set_stateDB _ (create_bump evm caller address)).
  assert (Hr : chainRules (set_stateDB (CreateAccount (stateDB e0) address) e0)
               = chainRules evm) by apply chainRules_create_bump.
  rewrite Hr.
  destruct (params.IsEIP158 (chainRules evm)); simpl;
    repeat match goal with
           | |- context [if ?b then _ else _] => destruct b
           end; simpl; rewrite Context_create_bump, Ht;
    [apply GetNonce_SetNonce_eq|apply GetNonce_SetNonce_eq|
     apply GetNonce_SetNonce_eq|apply GetNonce_CreateAccount..].
Qed.

Lemma getStateObject_create_bump_ne (evm : EVM) (caller : ContractRef)
    (address a : Address) :
  Address_of caller ≠ a →
  getStateObject (stateDB (create_bump evm caller address)) a
  = getStateObject (stateDB evm) a.
Proof.
  intros Hne. unfold create_bump, SetNonce. simpl.
  destruct (params.IsBerlin (chainRules evm)); simpl;
    [change (getStateObject (AddAddressToAccessList ?s ?x) ?a)
       with (getStateObject s a)|];
    rewrite getStateObject_updateObject; by rewrite decide_False.
Qed.

(** X16: a collision is stable: a creation that fails with
    [ErrContractAddressCollision] leaves the account at the target, when
    it is not the caller's own, exactly as it was, and every later
    creation at the same address on the machine it returns, by whatever
    caller, fails with the same error as soon as it passes its checks. *)
Theorem create_collision_is_stable (evm : EVM) (caller : ContractRef)
    (ch : codeAndHash) (gas value : Z) (address : Address) (typ : OpCode) :
  create_passesChecks evm caller value = true →
  create_collision (create_bump evm caller address) address = true →
  ∃ evm',
    create evm caller ch gas value address typ
      = ([], zeroAddress, 0, Some ErrContractAddressCollision, evm') ∧
    (Address_of caller ≠ address →
     getStateObject (stateDB evm') address
       = getStateObject (stateDB evm) address) ∧
    (∀ caller' ch' gas' value' typ',
       create_passesChecks evm' caller' value' = true →
       is_uint64 (GetNonce (stateDB evm') (Address_of caller')) →
       fst (create evm' caller' ch' gas' value' address typ')
       = ([], zeroAddress, 0, Some ErrContractAddressCollision)).
Proof.
  intros Hp Hcol.
  rewrite (create_checked _ _ _ _ _ _ _ Hp), Hcol.
  eexists. split; [reflexivity|]. split.
  { intros Hne. by apply getStateObject_create_bump_ne. }
  intros caller' ch' gas' value' typ' Hp' Hu.
  set (evm0 := create_bump evm caller address) in *.
  rewrite (create_checked _ _ _ _ _ _ _ Hp').
  assert (Hc : create_collision (create_bump evm0 caller' address) address
               = true).
  { unfold create_collision in *.
    destruct (decide (Address_of caller' = address)) as [Heq|Hne].
    - rewrite <- Heq, GetNonce_create_bump,
        (create_passesChecks_nonce _ _ _ Hp' Hu).
      assert ((GetNonce (stateDB evm0) (Address_of caller') + 1 =? 0)
              = false) as ->
        by (apply Z.eqb_neq; unfold is_uint64 in Hu; lia).
      reflexivity.
    - by rewrite GetNonce_create_bump_ne, GetCodeHash_create_bump_ne. }
  by rewrite Hc.
Qed.

(** X17: the no-op call to a missing account still pings the tracer as
    if a frame had run: in debug mode it reports an opening event with
    the gas given and a closing event with no output, no error and zero
    gas used, the start and end pair at depth 0 and the enter and exit
    pair below; outside debug mode it reports nothing. *)
Theorem noop_call_pings_the_tracer (evm : EVM) (caller : ContractRef)
    (addr : Address) (input : list byte) (gas : Z) :
  depth evm <= params.CallCreateDepth →
  Exist (stateDB evm) addr = false →
  precompile evm addr = None →
  params.IsEIP158 (chainRules evm) = true →
  ∃ evm',
    Call evm caller addr input gas 0 = ([], gas, None, evm') ∧
    Tracer (config evm')
    = if Debug (config evm) then
        Tracer (config evm) ++
        (if depth evm =? 0
         then [CaptureStart (Address_of caller) addr false input gas 0;
               CaptureEnd [] 0 None]
         else [CaptureEnter CALL (Address_of caller) addr input gas (Some 0);
               CaptureExit [] 0 None])
      else Tracer (config evm).
Proof.
  intros Hd Hex Hpre Hrule.
  assert (Hp : passesChecks VCall evm caller 0 = true)
    by (unfold passesChecks; by rewrite (gtb_limit_false _ Hd)).
  rewrite (Call_checked _ _ _ _ _ _ Hp), Call_frame_eq.
  assert (Hno : Call_noop (snd (takeSnapshot evm)) addr 0 = true).
  { unfold Call_noop.
    change (Exist (stateDB (snd (takeSnapshot evm))) addr)
      with (Exist (stateDB evm) addr).
    change (precompile (snd (takeSnapshot evm)) addr)
      with (precompile evm addr).
    change (chainRules (snd (takeSnapshot evm))) with (chainRules evm).
    by rewrite Hex, Hpre, Hrule. }
  rewrite Hno. eexists. split; [reflexivity|].
  unfold Call_pingTracer. rewrite takeSnapshot_eq. cbn [snd].
  change (Debug (config (set_stateDB ?s evm))) with (Debug (config evm)).
  change (depth (set_stateDB ?s evm)) with (depth evm).
  destruct (Debug (config evm)); [|reflexivity].
  destruct (depth evm =? 0); simpl; by rewrite <- app_assoc.
Qed.

(** X18: a [Call] to a precompile whose account is missing is no no-op,
    even with zero value under EIP-158: the account is created before the
    transfer and the precompile runs.  When the precompile succeeds its
    output and gas are returned, nothing is rolled back, and the account
    is there afterwards if the transfer keeps accounts. *)
Theorem call_to_missing_precompile_creates_it (evm : EVM)
    (caller : ContractRef) (addr : Address) (input : list byte)
    (gas value : Z) (p : PrecompiledContract) (ret : list byte) (g : Z) :
  passesChecks VCall evm caller value = true →
  precompile evm addr = Some p →
  Exist (stateDB evm) addr = false →
  RunPrecompiledContract p input gas = (ret, g, None) →
  ∃ evm',
    Call evm caller addr input gas value = (ret, g, None, evm') ∧
    stateDB evm'
    = Transfer (Context evm)
        (CreateAccount (snd (Snapshot (stateDB evm))) addr)
        (Address_of caller) addr value ∧
    ((∀ s, Exist s addr = true →
           Exist (Transfer (Context evm) s (Address_of caller) addr value)
             addr = true) →
     Exist (stateDB evm') addr = true).
Proof.
  intros Hp Hpre Hex Hrun.
  rewrite (Call_checked _ _ _ _ _ _ Hp), Call_frame_eq.
  assert (Hno : Call_noop (snd (takeSnapshot evm)) addr value = false).
  { unfold Call_noop.
    change (precompile (snd (takeSnapshot evm)) addr)
      with (precompile evm addr).
    rewrite Hpre. simpl. apply andb_false_r. }
  rewrite Hno, Hpre. unfold Call_dispatch. rewrite Hrun.
  destruct (stateDB_deferredCapture (Debug (config evm)) (depth evm =? 0) gas
              ret g None (entered VCall evm caller addr input gas value))
    as (evm' & Heq & Hst).
  exists evm'. split; [exact Heq|].
  rewrite Hst, stateDB_entered_Call, Hex.
  split; [reflexivity|]. intros Hkeep. apply Hkeep, Exist_CreateAccount.
Qed.

Lemma GetCode_AddBalance (s : StateDB) (a b : Address) (amount : Z) :
  GetCode (AddBalance s a amount) b = GetCode s b.
Proof.
  unfold AddBalance, GetOrNewStateObject, setBalance, GetCode.
  destruct (getStateObject s a) as [acc|] eqn:E; destruct (amount =? 0);
    try destruct (empty _); rewrite ?getStateObject_updateObject;
    unfold getStateObject in *; simpl;
    rewrite ?lookup_insert; repeat case_decide; subst;
    rewrite ?E; simpl; rewrite ?E; reflexivity.
Qed.

Lemma GetCode_SubBalance (s : StateDB) (a b : Address) (amount : Z) :
  GetCode (SubBalance s a amount) b = GetCode s b.
Proof.
  unfold SubBalance, GetOrNewStateObject, setBalance, GetCode.
  destruct (getStateObject s a) as [acc|] eqn:E; destruct (amount =? 0);
    rewrite ?getStateObject_updateObject;
    unfold getStateObject in *; simpl;
    rewrite ?lookup_insert; repeat case_decide; subst;
    rewrite ?E; simpl; rewrite ?E; reflexivity.
Qed.

End FurtherFacts.

(** ** The further properties on concrete inputs *)

Section FurtherInstances.
#[local] Existing Instance Sample.crypto.
#[local] Existing Instance Sample.precompiles.
#[local] Existing Instance Sample.interpreter.
#[local] Existing Instance Sample.protocol.

Lemma sample_transfer_keeps_code (s : StateDB) (a b c : Address)
    (amount : Z) :
  GetCode (Sample.transfer s a b amount) c = GetCode s c.
Proof.
  unfold Sample.transfer. by rewrite GetCode_AddBalance, GetCode_SubBalance.
Qed.

(** Above the depth limit with a declining guard the error is [ErrDepth];
    at depth 0 the declining guard gives [ErrInsufficientBalance]. *)
Lemma failed_check_witness :
  CallCode Sample.deepStrictMachine (AccountRef 10) 30 [] 5000 0
    = ([], 5000, Some ErrDepth, Sample.deepStrictMachine) ∧
  Call Sample.strictMachine (AccountRef 10) 30 [] 5000 7
    = ([], 5000, Some ErrInsufficientBalance, Sample.strictMachine).
Proof.
  split.
  - apply (inj Some).
    exact (failed_check_returns_gas_and_machine VCallCode
             Sample.deepStrictMachine (AccountRef 10) 30 [] 5000 0
             ltac:(reflexivity)).
  - apply (inj Some).
    exact (failed_check_returns_gas_and_machine VCall
             Sample.strictMachine (AccountRef 10) 30 [] 5000 7
             ltac:(reflexivity)).
Defined.

Lemma create_failed_check_witness :
  create Sample.deepStrictMachine (AccountRef 10)
    {| code := [xf3]; hash := zeroHash |} 5000 5 77 CREATE
    = ([], zeroAddress, 5000, Some ErrDepth, Sample.deepStrictMachine) ∧
  create Sample.strictMachine (AccountRef 10)
    {| code := [xf3]; hash := zeroHash |} 5000 5 77 CREATE
    = ([], zeroAddress, 5000, Some ErrInsufficientBalance,
       Sample.strictMachine).
Proof.
  split.
  - exact (create_failed_check_returns_gas_and_machine
             Sample.deepStrictMachine (AccountRef 10)
             {| code := [xf3]; hash := zeroHash |} 5000 5 77 CREATE
             ltac:(reflexivity)).
  - exact (create_failed_check_returns_gas_and_machine
             Sample.strictMachine (AccountRef 10)
             {| code := [xf3]; hash := zeroHash |} 5000 5 77 CREATE
             ltac:(reflexivity)).
Defined.

(** Account 10 with nonce 2^64 - 1 cannot create; with nonce 0 it can. *)
Lemma create_nonce_overflow_witness :
  GetNonce (stateDB Sample.maxNonceMachine) 10 = 2 ^ 64 - 1 ∧
  create Sample.maxNonceMachine (AccountRef 10)
    {| code := [xf3]; hash := zeroHash |} 5000 5 77 CREATE
    = ([], zeroAddress, 5000, Some ErrNonceUintOverflow,
       Sample.maxNonceMachine) ∧
  create_passesChecks (Sample.machine 0 true) (AccountRef 10) 5 = true.
Proof.
  split; [reflexivity|]. split.
  - apply (create_nonce_overflow_exactly_at_max Sample.maxNonceMachine
             (AccountRef 10) {| code := [xf3]; hash := zeroHash |} 5000 5 77
             CREATE).
    + vm_compute. congruence.
    + reflexivity.
    + vm_compute. split; congruence.
    + reflexivity.
  - apply (create_nonce_overflow_exactly_at_max (Sample.machine 0 true)
             (AccountRef 10) {| code := [xf3]; hash := zeroHash |} 5000 5 77
             CREATE).
    + vm_compute. congruence.
    + reflexivity.
    + vm_compute. split; congruence.
    + vm_compute. reflexivity.
Defined.

(** A creation at the free address 77 whose code reverts still returns
    77; a creation at the taken address 40 returns the zero address. *)
Lemma create_returns_designated_address_witness :
  snd (fst (fst (fst (create (Sample.machine 0 true) (AccountRef 10)
                        {| code := [xfd; x01]; hash := zeroHash |} 5000 5 77
                        CREATE)))) = 77 ∧
  snd (fst (create (Sample.machine 0 true) (AccountRef 10)
              {| code := [xfd; x01]; hash := zeroHash |} 5000 5 77 CREATE))
    = Some ErrExecutionReverted ∧
  snd (fst (fst (fst (create (Sample.machine 0 true) (AccountRef 10)
                        {| code := [xfd; x01]; hash := zeroHash |} 5000 5 40
                        CREATE)))) = zeroAddress.
Proof.
  split; [|split].
  - apply (create_returns_designated_address (Sample.machine 0 true)
             (AccountRef 10) {| code := [xfd; x01]; hash := zeroHash |} 5000
             5 77 CREATE); reflexivity.
  - reflexivity.
  - apply (create_returns_designated_address (Sample.machine 0 true)
             (AccountRef 10) {| code := [xfd; x01]; hash := zeroHash |} 5000
             5 40 CREATE); reflexivity.
Defined.


Lemma codeAndHash_Hash_witness :
  fst (codeAndHash_Hash {| code := [x01; x02]; hash := zeroHash |}) = 3 ∧
  codeAndHash_Hash
    (snd (codeAndHash_Hash {| code := [x01; x02]; hash := zeroHash |}))
  = (3, {| code := [x01; x02]; hash := 3 |}).
Proof.
  destruct (codeAndHash_Hash_is_cached
              {| code := [x01; x02]; hash := zeroHash |})
    as (Hsame & _ & _ & Hk).
  split; [exact (Hk eq_refl)|]. rewrite Hsame. reflexivity.
Defined.

(** Account 10, holding 100, calls account 40, which has no code, with
    value 7: all the gas comes back, and 7 has moved. *)
Lemma call_without_code_witness :
  ∃ evm',
    Call (Sample.machine 0 true) (AccountRef 10) 40 [] 21000 7
      = ([], 21000, None, evm') ∧
    GetBalance (stateDB evm') 10 = 93 ∧ GetBalance (stateDB evm') 40 = 7 ∧
    Exist (stateDB evm') 40 = true.
Proof.
  destruct (call_without_code_only_transfers (Sample.machine 0 true)
              (AccountRef 10) 40 [] 21000 7
              ltac:(reflexivity) ltac:(reflexivity)
              ltac:(left; reflexivity) ltac:(reflexivity)
              ltac:(intros s; apply sample_transfer_keeps_code))
    as (evm' & Hc & Hst & Hex).
  exists evm'. split; [exact Hc|]. rewrite Hst.
  split; [reflexivity|]. split; [reflexivity|]. reflexivity.
Defined.

(** The identity precompile through [CallCode] and [DelegateCall]: with
    gas it echoes the input and the checkpoint stays; without gas it
    fails and the store is the one of entry. *)
Lemma precompile_by_CallCode_or_DelegateCall_witness :
  (∃ evm',
     CallCode (Sample.machine 0 true) (AccountRef 10) 4 [x01] 100 0
       = ([x01], 99, None, evm') ∧
     world (stateDB evm') = world (stateDB (Sample.machine 0 true)) ∧
     length (validRevisions (stateDB evm')) = 1%nat) ∧
  (∃ evm',
     DelegateCall (Sample.machine 0 true) (AccountRef 10) 4 [x01] 0
       = Some ([], 0, Some (ErrExecutionFault 0), evm') ∧
     world (stateDB evm') = world (stateDB (Sample.machine 0 true)) ∧
     validRevisions (stateDB evm') = []).
Proof.
  split.
  - destruct (precompile_by_CallCode_or_DelegateCall VCallCode
                (Sample.machine 0 true) (AccountRef 10) 4 [x01] 100 0
                Sample.identity [x01] 99 None
                ltac:(left; reflexivity) ltac:(reflexivity)
                ltac:(reflexivity) ltac:(reflexivity))
      as (evm' & Hc & Hw & Hr).
    exists evm'. split; [by apply (inj Some)|]. split; [exact Hw|].
    by rewrite Hr.
  - destruct (precompile_by_CallCode_or_DelegateCall VDelegateCall
                (Sample.machine 0 true) (AccountRef 10) 4 [x01] 0 0
                Sample.identity [] 0 (Some (ErrExecutionFault 0))
                ltac:(right; reflexivity) ltac:(reflexivity)
                ltac:(reflexivity) ltac:(reflexivity))
      as (evm' & Hc & Hw & Hr).
    exists evm'. split; [exact Hc|]. split; [exact Hw|exact Hr].
Defined.

(** A static call at depth 3 in debug mode, to the identity precompile
    with two bytes of input and one unit of gas: the precompile fails, and
    the closing event reports the one unit as used. *)
Lemma tracer_events_witness :
  ∃ evm',
    invoke VStaticCall (Sample.tracedMachine 3) (AccountRef 10) 4 [x01; x02]
      1 0 = Some ([], 0, Some (ErrExecutionFault 0), evm') ∧
    Tracer (config evm')
    = [CaptureEnter STATICCALL 10 4 [x01; x02] 1 None;
       CaptureExit [] 1 (Some (ErrExecutionFault 0))].
Proof.
  destruct (tracer_events_bracket_the_dispatch VStaticCall
              (Sample.tracedMachine 3) (AccountRef 10) 4 [x01; x02] 1 0
              [] 0 (Some (ErrExecutionFault 0))
              (entered VStaticCall (Sample.tracedMachine 3) (AccountRef 10)
                 4 [x01; x02] 1 0)
              ltac:(reflexivity) ltac:(reflexivity))
    as (g' & evm' & Hinv & Hz & _ & Hdbg).
  assert (g' = 0) as -> by (by apply (Hz (ErrExecutionFault 0))).
  destruct (Hdbg eq_refl) as [Hent Hexit].
  exists evm'. split; [exact Hinv|]. rewrite Hexit, Hent. reflexivity.
Defined.

(** A call at depth 7 that reverts: the machine returned is at depth 7
    under the same rules. *)
Lemma call_variants_keep_depth_witness :
  ∃ g' evm',
    invoke VCall (Sample.machine 7 true) (AccountRef 10) 20 [] 5000 7
      = Some ([x01], g', Some ErrExecutionReverted, evm') ∧
    depth evm' = 7 ∧ chainRules evm' = Sample.rules true.
Proof.
  destruct (call_variants_keep_depth_rules_and_context VCall
              (Sample.machine 7 true) (AccountRef 10) 20 [] 5000 7 [x01] 4900
              (Some ErrExecutionReverted)
              (entered VCall (Sample.machine 7 true) (AccountRef 10) 20 []
                 5000 7)
              ltac:(reflexivity) ltac:(reflexivity))
    as ((Hd & Hr & _ & _) & g' & evm' & Hinv & Hd' & Hr' & _ & _).
  exists g', evm'. split; [exact Hinv|].
  rewrite Hd', Hr', Hd, Hr. split; reflexivity.
Defined.


(** Deployment code that returns two bytes, with 5000 gas. *)
Lemma created_code_reads_back_witness :
  ∃ evm',
    create (Sample.machine 0 true) (AccountRef 10)
      {| code := [xf3; x01; x02]; hash := zeroHash |} 5000 5 77 CREATE
      = ([x01; x02], 77, 4500, None, evm') ∧
    GetCode (stateDB evm') 77 = [x01; x02] ∧
    GetCodeHash (stateDB evm') 77 = Keccak256Hash [x01; x02].
Proof.
  destruct (created_code_reads_back (Sample.machine 0 true) (AccountRef 10)
              {| code := [xf3; x01; x02]; hash := zeroHash |} 5000 5 77
              CREATE [x01; x02] None
              (set_Gas 4900
                 (create_contract (AccountRef 10)
                    {| code := [xf3; x01; x02]; hash := zeroHash |} 5000 5
                    77))
              (create_entered (Sample.machine 0 true) (AccountRef 10)
                 {| code := [xf3; x01; x02]; hash := zeroHash |} 5000 5 77
                 CREATE)
              ltac:(reflexivity) ltac:(reflexivity) ltac:(reflexivity)
              ltac:(reflexivity))
    as (evm' & Hc & _ & Hcode & Hhash).
  exists evm'. split; [exact Hc|]. split; [exact Hcode|].
  by rewrite Hhash, Hcode.
Defined.

(** Deployment code that returns nothing. *)
Lemma create_with_empty_output_witness :
  ∃ evm',
    create (Sample.machine 0 true) (AccountRef 10)
      {| code := [xf3]; hash := zeroHash |} 5000 5 77 CREATE
      = ([], 77, 4900, None, evm') ∧
    GetCode (stateDB evm') 77 = [] ∧
    GetCodeHash (stateDB evm') 77 = emptyCodeHash.
Proof.
  apply (create_with_empty_output (Sample.machine 0 true) (AccountRef 10)
           {| code := [xf3]; hash := zeroHash |} 5000 5 77 CREATE
           (set_Gas 4900
              (create_contract (AccountRef 10)
                 {| code := [xf3]; hash := zeroHash |} 5000 5 77))
           (create_entered (Sample.machine 0 true) (AccountRef 10)
              {| code := [xf3]; hash := zeroHash |} 5000 5 77 CREATE)).
  - reflexivity.
  - reflexivity.
  - reflexivity.
  - vm_compute. congruence.
  - vm_compute. congruence.
Defined.

(** Deployment code that faults: the fault is returned and no gas is
    left. *)
Lemma create_keeps_the_error_witness :
  ∃ evm',
    create (Sample.machine 0 true) (AccountRef 10)
      {| code := [xef; x01]; hash := zeroHash |} 5000 5 77 CREATE
    = ([], 77, 0, Some (ErrExecutionFault 3), evm').
Proof.
  apply (create_keeps_the_error_of_the_run (Sample.machine 0 true)
           (AccountRef 10) {| code := [xef; x01]; hash := zeroHash |} 5000 5
           77 CREATE [] (ErrExecutionFault 3)
           (create_contract (AccountRef 10)
              {| code := [xef; x01]; hash := zeroHash |} 5000 5 77)
           (create_entered (Sample.machine 0 true) (AccountRef 10)
              {| code := [xef; x01]; hash := zeroHash |} 5000 5 77 CREATE));
    reflexivity.
Defined.

(** Under EIP-158 the account at 77 starts with nonce 1, under the first
    rules with nonce 0. *)
Lemma new_account_starts_with_nonce_witness :
  GetNonce
    (stateDB (create_entered (Sample.machine 0 true) (AccountRef 10)
                {| code := [xf3]; hash := zeroHash |} 5000 5 77 CREATE)) 77
    = 1 ∧
  GetNonce
    (stateDB (create_entered Sample.frontierMachine (AccountRef 10)
                {| code := [xf3]; hash := zeroHash |} 5000 5 77 CREATE)) 77
    = 0.
Proof.
  split.
  - apply (new_account_starts_with_nonce (Sample.machine 0 true)
             (AccountRef 10) {| code := [xf3]; hash := zeroHash |} 5000 5 77
             CREATE).
    intros s. apply sample_transfer_keeps_nonces.
  - apply (new_account_starts_with_nonce Sample.frontierMachine
             (AccountRef 10) {| code := [xf3]; hash := zeroHash |} 5000 5 77
             CREATE).
    intros s. apply sample_transfer_keeps_nonces.
Defined.

(** A creation at the taken address 40, and a second one on the machine
    the first returned. *)
Lemma create_collision_is_stable_witness :
  ∃ evm',
    create (Sample.machine 0 true) (AccountRef 10)
      {| code := [xf3]; hash := zeroHash |} 5000 5 40 CREATE
      = ([], zeroAddress, 0, Some ErrContractAddressCollision, evm') ∧
    GetNonce (stateDB evm') 40 = 1 ∧
    fst (create evm' (AccountRef 10) {| code := [xf3]; hash := zeroHash |}
           3000 5 40 CREATE)
      = ([], zeroAddress, 0, Some ErrContractAddressCollision).
Proof.
  destruct (create_collision_is_stable (Sample.machine 0 true)
              (AccountRef 10) {| code := [xf3]; hash := zeroHash |} 5000 5 40
              CREATE ltac:(reflexivity) ltac:(reflexivity))
    as (evm' & Hc & Hsame & Hagain).
  exists evm'. split; [exact Hc|].
  assert (Hevm : evm' = create_bump (Sample.machine 0 true) (AccountRef 10) 40)
    by (vm_compute in Hc; vm_compute; congruence).
  split.
  - unfold GetNonce. rewrite Hsame; [reflexivity|]. simpl. lia.
  - apply Hagain; rewrite Hevm.
    + reflexivity.
    + vm_compute. split; congruence.
Defined.

(** The no-op call at depth 0 and at depth 2, in debug mode. *)
Lemma noop_call_pings_the_tracer_witness :
  (∃ evm',
     Call (Sample.tracedMachine 0) (AccountRef 10) 99 [x01] 5000 0
       = ([], 5000, None, evm') ∧
     Tracer (config evm')
     = [CaptureStart 10 99 false [x01] 5000 0; CaptureEnd [] 0 None]) ∧
  (∃ evm',
     Call (Sample.tracedMachine 2) (AccountRef 10) 99 [x01] 5000 0
       = ([], 5000, None, evm') ∧
     Tracer (config evm')
     = [CaptureEnter CALL 10 99 [x01] 5000 (Some 0);
        CaptureExit [] 0 None]).
Proof.
  split.
  - apply (noop_call_pings_the_tracer (Sample.tracedMachine 0)
             (AccountRef 10) 99 [x01] 5000).
    + vm_compute. congruence.
    + reflexivity.
    + reflexivity.
    + reflexivity.
  - apply (noop_call_pings_the_tracer (Sample.tracedMachine 2)
             (AccountRef 10) 99 [x01] 5000).
    + vm_compute. congruence.
    + reflexivity.
    + reflexivity.
    + reflexivity.
Defined.

(** A zero-value call to the identity precompile, whose account 4 is
    missing: the account is there afterwards. *)
Lemma call_to_missing_precompile_witness :
  Exist (stateDB (Sample.machine 0 true)) 4 = false ∧
  ∃ evm',
    Call (Sample.machine 0 true) (AccountRef 10) 4 [x01] 100 0
      = ([x01], 99, None, evm') ∧
    Exist (stateDB evm') 4 = true.
Proof.
  split; [reflexivity|].
  destruct (call_to_missing_precompile_creates_it (Sample.machine 0 true)
              (AccountRef 10) 4 [x01] 100 0 Sample.identity [x01] 99
              ltac:(reflexivity) ltac:(reflexivity) ltac:(reflexivity)
              ltac:(reflexivity))
    as (evm' & Hc & Hst & Hex).
  exists evm'. split; [exact Hc|]. apply Hex.
  intros s _. apply Exist_AddBalance.
Defined.

End FurtherInstances.
